(** * Nepali date converter client (examples/python/requests_example.py)

    A shallow embedding of the request helpers of [requests_example.py]:
    the retry loop, the caching converter, the batch driver, the two date
    validators and the formatting helpers, together with the properties
    the specification states about them.

    Python integers are [Z], strings are [string], dictionaries are
    [gmap string _], and the effects of the module (HTTP GETs, [time.sleep],
    [print]) are recorded, in order, in a log threaded through a small state
    monad. *)

From Stdlib Require Import ZArith QArith Ascii String DecimalString Lia.
From Stdlib Require DecimalPos DecimalZ.
From stdpp Require Import strings gmap list.

Local Open Scope Z_scope.

(** ** Python builtins used by the module *)

Module Py.

(** The subclasses of [requests.RequestException] the module can meet:
    [requests.get] times out or cannot connect, [raise_for_status] rejects a
    4xx/5xx status, or any other failure of the library. *)
Inductive request_failure :=
| Timeout
| ConnectionError
| HTTPError (status_code : Z)
| OtherRequestFailure.

(** Exceptions that reach the functions modelled below; a
    [RequestException] carries its text [str(e)]. *)
Inductive exception :=
| ValueError
| KeyError (key : string)
| TypeError
| AttributeError
| OverflowError
| RequestException (kind : request_failure) (message : string).

(** A number passed as a duration: an [int] or a finite [float], or one of
    the other values of a [float]. *)
Inductive number :=
| Finite (q : Q)
| Infinity
| MinusInfinity
| NaN.

(** The outcome of evaluating an expression that may raise. *)
Inductive result (A : Type) :=
| Ok (a : A)
| Raise (e : exception).
Arguments Ok {A} a.
Arguments Raise {A} e.

Definition bind {A B} (r : result A) (k : A -> result B) : result B :=
  match r with
  | Ok a => k a
  | Raise e => Raise e
  end.

(** [str(n)] for an [int]: decimal digits, ['-'] in front when negative.
    CPython 3.11 refuses, with [ValueError], to print an integer of more
    than [MAX_STR_DIGITS] digits; this function gives the text of those
    it prints, the [printable] ones. *)
Definition str_of_int (n : Z) : string :=
  NilZero.string_of_int (Z.to_int n).

(** [sys.int_info.default_max_str_digits]. *)
Definition MAX_STR_DIGITS : Z := 4300.

Definition printable (n : Z) : Prop := Z.abs n < 10 ^ MAX_STR_DIGITS.

(** [str(x)] for an optional string: [None] prints as ["None"]. *)
Definition str_of_optional (o : option string) : string :=
  match o with
  | Some s => s
  | None => "None"
  end.

Fixpoint zeros (n : nat) : string :=
  match n with
  | O => EmptyString
  | S k => String "0"%char (zeros k)
  end.

(** [s.zfill(width)]: pad with zeros on the left, after a leading sign. *)
Definition zfill (s : string) (width : nat) : string :=
  if (width <=? String.length s)%nat then s
  else
    let fill := zeros (width - String.length s) in
    match s with
    | String c rest =>
        if (Ascii.eqb c "+"%char || Ascii.eqb c "-"%char)%bool
        then String c (fill +:+ rest)
        else fill +:+ s
    | EmptyString => fill
    end.

(** Scan of [str.replace] for a non-empty pattern: [skip] counts the
    characters of the occurrence just replaced that remain to be dropped. *)
Fixpoint replace_from (old new : string) (skip : nat) (s : string) : string :=
  match s with
  | EmptyString => EmptyString
  | String c rest =>
      match skip with
      | S k => replace_from old new k rest
      | O =>
          if String.prefix old s
          then new +:+ replace_from old new (String.length old - 1) rest
          else String c (replace_from old new 0 rest)
      end
  end.

Fixpoint interleave (new s : string) : string :=
  match s with
  | EmptyString => new
  | String c rest => new +:+ String c (interleave new rest)
  end.

(** [s.replace(old, new)]: every non-overlapping occurrence, left to right;
    an empty pattern matches between all characters. *)
Definition replace (s old new : string) : string :=
  match old with
  | EmptyString => interleave new s
  | String _ _ => replace_from old new 0 s
  end.

(** Truth value of an optional dictionary: [None] and [{}] are falsy. *)
Definition truthy {V} (d : option (gmap string V)) : bool :=
  match d with
  | None => false
  | Some m => negb (bool_decide (m = ∅))
  end.

(** [d[key]] raises [KeyError] when the key is missing. *)
Definition getitem {V} (d : gmap string V) (key : string) : result V :=
  match d !! key with
  | Some v => Ok v
  | None => Raise (KeyError key)
  end.

End Py.

(** ** The [datetime] constructor, as far as [is_valid_ad_date] uses it *)

Module Datetime.

Definition MINYEAR : Z := 1.
Definition MAXYEAR : Z := 9999.

Definition _DAYS_IN_MONTH : list Z :=
  [-1; 31; 28; 31; 30; 31; 30; 31; 31; 30; 31; 30; 31].

Definition _is_leap (year : Z) : bool :=
  (year mod 4 =? 0) && (negb (year mod 100 =? 0) || (year mod 400 =? 0)).

Definition _days_in_month (year month : Z) : Z :=
  if (month =? 2) && _is_leap year then 29
  else nth (Z.to_nat month) _DAYS_IN_MONTH (-1).

(** [datetime(year, month, day)] raises [ValueError] unless the three
    fields pass [_check_date_fields]; the remaining fields default to 0. *)
Definition datetime (year month day : Z) : Py.result (Z * Z * Z) :=
  if negb ((MINYEAR <=? year) && (year <=? MAXYEAR)) then Py.Raise Py.ValueError
  else if negb ((1 <=? month) && (month <=? 12)) then Py.Raise Py.ValueError
  else
    let dim := _days_in_month year month in
    if negb ((1 <=? day) && (day <=? dim)) then Py.Raise Py.ValueError
    else Py.Ok (year, month, day).

End Datetime.

(** ** 7. Date validation *)

Definition is_valid_ad_date (year month day : Z) : bool :=
  if negb ((1943 <=? year) && (year <=? 2042)) then false
  else if negb ((1 <=? month) && (month <=? 12)) then false
  else if negb ((1 <=? day) && (day <=? 31)) then false
  else
    match Datetime.datetime year month day with
    | Py.Ok _ => true
    | Py.Raise _ => false
    end.

Definition is_valid_bs_date (year month day : Z) : bool :=
  if negb ((2000 <=? year) && (year <=? 2099)) then false
  else if negb ((1 <=? month) && (month <=? 12)) then false
  else if negb ((1 <=? day) && (day <=? 32)) then false
  else true.

(** ** 9. Formatting helpers *)

(** A date dictionary: [{'year': _, 'month': _, 'day': _}]. *)
Abbreviation date_dict := (gmap string Z).

Definition make_date (year month day : Z) : date_dict :=
  <["year" := year]> (<["month" := month]> (<["day" := day]> ∅)).

Definition format_nepali_date (date_dict : option date_dict) (format_str : string)
  : Py.result string :=
  if negb (Py.truthy date_dict) then Py.Ok EmptyString
  else
    match date_dict with
    | None => Py.Raise Py.TypeError
    | Some d =>
        Py.bind (Py.getitem d "year") (fun y =>
        let year := Py.str_of_int y in
        Py.bind (Py.getitem d "month") (fun m =>
        let month := Py.zfill (Py.str_of_int m) 2 in
        Py.bind (Py.getitem d "day") (fun dd =>
        let day := Py.zfill (Py.str_of_int dd) 2 in
        Py.Ok (Py.replace (Py.replace (Py.replace format_str "YYYY" year)
                                      "MM" month)
                          "DD" day))))
    end.

Definition format_ad_date (date_dict : option date_dict) (format_str : string)
  : Py.result string :=
  format_nepali_date date_dict format_str.

(** ** The outside world: HTTP, the clock and the console *)

(** The decoded body [data], as the module reads it: [data.get('success')],
    then [data['result']] or [data.get('error')].
    - [Success]: an object whose success is true, with its result, a
      dictionary of integer fields;
    - [Failure]: an object whose success is false or absent, with its error
      ([None] when the field is absent);
    - [SuccessNoResult]: an object whose success is true but that has no
      result, so that [data['result']] raises [KeyError];
    - [NotAnObject]: a JSON array, text, number or null, on which
      [data.get] raises [AttributeError]. *)
Inductive envelope :=
| Success (result : date_dict)
| Failure (error : option string)
| SuccessNoResult
| NotAnObject.

(** The bodies the service documents: success with a result, or failure. *)
Definition documented (data : envelope) : Prop :=
  match data with
  | Success _ | Failure _ => True
  | SuccessNoResult | NotAnObject => False
  end.

(** What the three lines
    [response = requests.get(url, timeout=10)],
    [response.raise_for_status()], [data = response.json()]
    come to: a [RequestException] is raised (a body that is not JSON raises
    one too, [requests.JSONDecodeError]), or [data] is bound. *)
Inductive reply :=
| Fails (kind : Py.request_failure) (message : string)
| Responds (data : envelope).

(** The remote service: its reply to a GET of [url], given how many GETs
    the process has issued before. *)
Abbreviation service := (nat -> string -> reply).

Inductive event :=
| Get (url : string)
| Sleep (seconds : Q)
| Print (line : string).

Module IO.

(** A computation reads and extends the log of events, and returns a value
    or raises. *)
Definition io (A : Type) : Type := list event -> Py.result A * list event.

Definition ret {A} (a : A) : io A := fun log => (Py.Ok a, log).

Definition bind {A B} (m : io A) (k : A -> io B) : io B :=
  fun log =>
    match m log with
    | (Py.Ok a, log') => k a log'
    | (Py.Raise e, log') => (Py.Raise e, log')
    end.

(** [try: body / except requests.RequestException as e: handler(str(e))]:
    other exceptions propagate. *)
Definition try_except {A} (body : io A) (handler : string -> io A) : io A :=
  fun log =>
    match body log with
    | (Py.Raise (Py.RequestException _ message), log') => handler message log'
    | other => other
    end.

(** The URLs requested so far, oldest first. *)
Definition gets (log : list event) : list string :=
  omap (fun e => match e with Get url => Some url | _ => None end) log.

(** The [time.sleep] calls so far, oldest first. *)
Definition sleeps (log : list event) : list Q :=
  omap (fun e => match e with Sleep secs => Some secs | _ => None end) log.

(** The log without the console output. *)
Definition effects (log : list event) : list event :=
  List.filter (fun e => match e with Print _ => false | _ => true end) log.

(** [requests.get(url, timeout=10)], [raise_for_status()] and [json()]. *)
Definition fetch (server : service) (url : string) : io envelope :=
  fun log =>
    match server (length (gets log)) url with
    | Fails kind message => (Py.Raise (Py.RequestException kind message), log ++ [Get url])
    | Responds data => (Py.Ok data, log ++ [Get url])
    end.

(** [raise e]. *)
Definition raise {A} (e : Py.exception) : io A := fun log => (Py.Raise e, log).

(** The clock of [time.sleep] counts nanoseconds in 64 bits. *)
Definition CLOCK_MIN : Q := inject_Z (- 2 ^ 63).
Definition CLOCK_MAX : Q := inject_Z (2 ^ 63 - 1).

(** [time.sleep(seconds)]: [ValueError] for NaN, [OverflowError] for a
    length whose nanoseconds do not fit the clock (2 ** 34 and 10 ** 10
    seconds, infinity), [ValueError] for a negative length, and the sleep
    otherwise.  Lengths of up to 2 ** 33 seconds are slept; between these
    and the limit of the clock the deadline (the time since boot plus the
    length) can pass the limit, which Linux refuses with [OSError], and no
    property below sleeps that long. *)
Definition time_sleep (seconds : Py.number) : io unit :=
  fun log =>
    match seconds with
    | Py.NaN => (Py.Raise Py.ValueError, log)
    | Py.Infinity | Py.MinusInfinity => (Py.Raise Py.OverflowError, log)
    | Py.Finite q =>
        if negb (Qle_bool CLOCK_MIN (q * inject_Z (10 ^ 9))
                 && Qle_bool (q * inject_Z (10 ^ 9)) CLOCK_MAX)
        then (Py.Raise Py.OverflowError, log)
        else if Qle_bool 0 q then (Py.Ok tt, log ++ [Sleep q])
        else (Py.Raise Py.ValueError, log)
    end.

Definition print (line : string) : io unit :=
  fun log => (Py.Ok tt, log ++ [Print line]).

End IO.

Declare Scope io_scope.
Delimit Scope io_scope with io.
Notation "'let*' x ':=' m 'in' k" := (IO.bind m (fun x => k))
  (at level 10, x name, m at level 100, k at level 200) : io_scope.
Notation "m ;; k" := (IO.bind m (fun _ => k))
  (at level 100, k at level 200, right associativity) : io_scope.

Import IO.
Local Open Scope io_scope.

(** The endpoint [https://sudhanparajuli.com.np/api/{type}/{year}/{month}/{day}]. *)
Definition api_url (conversion_type : string) (year month day : Z) : string :=
  "https://sudhanparajuli.com.np/api/" +:+ conversion_type
    +:+ "/" +:+ Py.str_of_int year
    +:+ "/" +:+ Py.str_of_int month
    +:+ "/" +:+ Py.str_of_int day.

(** [range(start, stop)]. *)
Definition range (start stop : Z) : list Z := seqZ start (stop - start).

(** How one pass through a loop body ends: the function returns, or the
    loop goes on. *)
Inductive flow (A : Type) :=
| Return (value : A)
| Continue.
Arguments Return {A} value.
Arguments Continue {A}.

(** ** 4. With retry logic *)

Section Retry.
Variable server : service.

Fixpoint retry_loop (url : string) (max_retries : Z) (attempts : list Z)
  : io (option date_dict) :=
  match attempts with
  | [] => ret None
  | attempt :: rest =>
      let* step := try_except
        (let* data := fetch server url in
         match data with
         | Success result => ret (Return (Some result))
         | Failure error =>
             print ("Attempt " +:+ Py.str_of_int attempt +:+ ": "
                      +:+ Py.str_of_optional error) ;;
             ret Continue
         | SuccessNoResult => raise (Py.KeyError "result")
         | NotAnObject => raise Py.AttributeError
         end)
        (fun e =>
           print ("Attempt " +:+ Py.str_of_int attempt +:+ " failed: " +:+ e) ;;
           if attempt <? max_retries then
             let wait_time := 2 ^ attempt in
             print ("Retrying in " +:+ Py.str_of_int wait_time +:+ " seconds...") ;;
             time_sleep (Py.Finite (inject_Z wait_time)) ;;
             ret Continue
           else
             print "All retry attempts failed" ;;
             ret (Return None)) in
      match step with
      | Return value => ret value
      | Continue => retry_loop url max_retries rest
      end
  end.

Definition convert_with_retry (year month day : Z) (conversion_type : string)
    (max_retries : Z) : io (option date_dict) :=
  let url := api_url conversion_type year month day in
  retry_loop url max_retries (range 1 (max_retries + 1)).

End Retry.

(** ** 5. With caching *)

Module DateConverterCache.

(** The instance: its one attribute, [self.cache]. *)
Record t := { cache : gmap string date_dict }.

Definition __init__ : t := {| cache := ∅ |}.

Definition _generate_key (year month day : Z) (conv_type : string) : string :=
  conv_type +:+ "-" +:+ Py.str_of_int year
    +:+ "-" +:+ Py.str_of_int month
    +:+ "-" +:+ Py.str_of_int day.

Section Methods.
Variable server : service.

(** The method returns its value together with the instance as it leaves it. *)
Definition convert (self : t) (year month day : Z) (conversion_type : string)
  : io (option date_dict * t) :=
  let key := _generate_key year month day conversion_type in
  match cache self !! key with
  | Some stored =>
      print "Returning cached result" ;;
      ret (Some stored, self)
  | None =>
      let url := api_url conversion_type year month day in
      try_except
        (let* data := fetch server url in
         match data with
         | Success result =>
             ret (Some result, {| cache := <[key := result]> (cache self) |})
         | Failure error =>
             print ("Error: " +:+ Py.str_of_optional error) ;;
             ret (None, self)
         | SuccessNoResult => raise (Py.KeyError "result")
         | NotAnObject => raise Py.AttributeError
         end)
        (fun e =>
           print ("Request failed: " +:+ e) ;;
           ret (None, self))
  end.

End Methods.

Definition clear_cache (self : t) : io (unit * t) :=
  print "Cache cleared" ;;
  ret (tt, {| cache := ∅ |}).

Definition get_cache_size (self : t) : Z := Z.of_nat (size (cache self)).

End DateConverterCache.

(** ** 6. Batch conversion *)

(** One element of the list [convert_batch_dates] returns:
    [{'input': _, 'output': _, 'success': True}] or
    [{'input': _, 'error': _, 'success': False}]. *)
Inductive batch_entry :=
| Converted (input output : date_dict)
| NotConverted (input : date_dict) (error : option string).

Definition entry_input (e : batch_entry) : date_dict :=
  match e with
  | Converted input _ => input
  | NotConverted input _ => input
  end.

Definition entry_success (e : batch_entry) : bool :=
  match e with
  | Converted _ _ => true
  | NotConverted _ _ => false
  end.

Section Batch.
Variable server : service.

(** The [for] loop; [results] is the list built so far. *)
Fixpoint batch_loop (conversion_type : string) (delay : Py.number)
    (dates : list (Z * Z * Z)) (results : list batch_entry)
  : io (list batch_entry) :=
  match dates with
  | [] => ret results
  | (year, month, day) :: rest =>
      let url := api_url conversion_type year month day in
      let* results := try_except
        (let* data := fetch server url in
         match data with
         | Success result =>
             ret (results ++ [Converted (make_date year month day) result])
         | Failure error =>
             ret (results ++ [NotConverted (make_date year month day) error])
         | SuccessNoResult => raise (Py.KeyError "result")
         | NotAnObject => raise Py.AttributeError
         end)
        (fun e =>
           ret (results ++ [NotConverted (make_date year month day) (Some e)])) in
      time_sleep delay ;;
      batch_loop conversion_type delay rest results
  end.

Definition convert_batch_dates (dates : list (Z * Z * Z))
    (conversion_type : string) (delay : Py.number) : io (list batch_entry) :=
  batch_loop conversion_type delay dates [].

End Batch.

(** ** 1, 2. Basic conversions *)

(** [try: body / except requests.Timeout: ... / except
    requests.RequestException as e: ...]: the handler is given the class of
    the exception, to choose its clause, and the text [str(e)]. *)
Definition try_except_by_class {A} (body : io A)
    (handler : Py.request_failure -> string -> io A) : io A :=
  fun log =>
    match body log with
    | (Py.Raise (Py.RequestException kind message), log') => handler kind message log'
    | other => other
    end.

(** An expression that may raise, evaluated inside a computation. *)
Definition lift {A} (r : Py.result A) : io A := fun log => (r, log).

(** [data.get(key, fallback)] for the optional text of the envelope. *)
Definition get_or (field : option string) (fallback : string) : string :=
  match field with
  | Some text => text
  | None => fallback
  end.

(** The text of [f"{date['year']}-{date['month']}-{date['day']}"]: the
    three subscripts are evaluated in this order. *)
Definition dashed_fields (date : date_dict) : Py.result string :=
  Py.bind (Py.getitem date "year") (fun y =>
  Py.bind (Py.getitem date "month") (fun m =>
  Py.bind (Py.getitem date "day") (fun d =>
  Py.Ok (Py.str_of_int y +:+ "-" +:+ Py.str_of_int m +:+ "-" +:+ Py.str_of_int d)))).

Section Basic.
Variable server : service.

Definition convert_ad_to_bs (year month day : Z) : io (option date_dict) :=
  let url := "https://sudhanparajuli.com.np/api/ad-to-bs/" +:+ Py.str_of_int year
               +:+ "/" +:+ Py.str_of_int month +:+ "/" +:+ Py.str_of_int day in
  try_except_by_class
    (let* data := fetch server url in
     match data with
     | Success bs_date =>
         let* converted := lift (dashed_fields bs_date) in
         print ("AD " +:+ Py.str_of_int year +:+ "-" +:+ Py.str_of_int month
                  +:+ "-" +:+ Py.str_of_int day +:+ " = BS " +:+ converted) ;;
         ret (Some bs_date)
     | Failure error =>
         print ("Error: " +:+ get_or error "Unknown error") ;;
         ret None
     | SuccessNoResult => raise (Py.KeyError "result")
     | NotAnObject => raise Py.AttributeError
     end)
    (fun kind e =>
       match kind with
       | Py.Timeout =>
           print "Request timed out" ;;
           ret None
       | _ =>
           print ("Request failed: " +:+ e) ;;
           ret None
       end).


(** ** 7. Conversion with validation *)

Definition convert_with_validation (year month day : Z) (conversion_type : string)
  : io (option date_dict) :=
  let is_valid :=
    if String.eqb conversion_type "ad-to-bs"
    then is_valid_ad_date year month day
    else is_valid_bs_date year month day in
  if negb is_valid then
    print ("Invalid date: " +:+ Py.str_of_int year +:+ "-" +:+ Py.str_of_int month
             +:+ "-" +:+ Py.str_of_int day) ;;
    ret None
  else
    let url := api_url conversion_type year month day in
    try_except
      (let* data := fetch server url in
       match data with
       | Success result => ret (Some result)
       | Failure _ => ret None
       | SuccessNoResult => raise (Py.KeyError "result")
       | NotAnObject => raise Py.AttributeError
       end)
      (fun e =>
         print ("Request failed: " +:+ e) ;;
         ret None).

End Basic.

(** ** 10. Error handling wrapper *)

Module Requests.

(** The response object [requests.get] returns, as far as the module reads
    it: the status line, the final URL, and the envelope its body decodes
    to. *)
Record Response := {
  status_code : Z;
  reason : string;
  url : string;
  data : envelope
}.

(** [requests.get(url, timeout=10)] raises or returns a response. *)
Inductive answer :=
| Raises (kind : Py.request_failure) (message : string)
| Returns (response : Response).

(** [response.raise_for_status()]: the text of the [HTTPError] it raises for
    a 4xx or 5xx status, [None] when it returns. *)
Definition raise_for_status (response : Response) : option string :=
  if (400 <=? status_code response) && (status_code response <? 500) then
    Some (Py.str_of_int (status_code response) +:+ " Client Error: "
            +:+ reason response +:+ " for url: " +:+ url response)
  else if (500 <=? status_code response) && (status_code response <? 600) then
    Some (Py.str_of_int (status_code response) +:+ " Server Error: "
            +:+ reason response +:+ " for url: " +:+ url response)
  else None.

(** [requests.get], [raise_for_status] and [json] in a row. *)
Definition settle (a : answer) : reply :=
  match a with
  | Raises kind message => Fails kind message
  | Returns response =>
      match raise_for_status response with
      | Some message => Fails (Py.HTTPError (status_code response)) message
      | None => Responds (data response)
      end
  end.

End Requests.

(** The remote service seen at the level of [requests.get]. *)
Abbreviation web := (nat -> string -> Requests.answer).

(** The service the other functions meet, over the same web. *)
Definition served (w : web) : service := fun n url => Requests.settle (w n url).

(** [safe_convert] returns the result or raises [ConversionError]; an
    exception that none of its [except] clauses names passes through it. *)
Inductive safe_outcome :=
| Returned (result : date_dict)
| ConversionError (message : string)
| Uncaught (e : Py.exception).

(** The three [except] clauses of [safe_convert], in their order. *)
Definition safe_convert_except (kind : Py.request_failure) (e : string)
  : safe_outcome :=
  match kind with
  | Py.Timeout => ConversionError "Request timed out"
  | Py.ConnectionError => ConversionError "Connection error"
  | _ => ConversionError ("Request failed: " +:+ e)
  end.

Definition safe_convert (w : web) (year month day : Z) (conversion_type : string)
  : list event -> safe_outcome * list event :=
  fun log =>
    let url := api_url conversion_type year month day in
    (match w (length (gets log)) url with
     | Requests.Raises kind e => safe_convert_except kind e
     | Requests.Returns response =>
         if Requests.status_code response =? 400 then
           ConversionError "Invalid date provided"
         else if Requests.status_code response =? 404 then
           ConversionError "API endpoint not found"
         else if 500 <=? Requests.status_code response then
           ConversionError "Server error occurred"
         else
           match Requests.raise_for_status response with
           | Some e => safe_convert_except (Py.HTTPError (Requests.status_code response)) e
           | None =>
               match Requests.data response with
               | Success result => Returned result
               | Failure error => ConversionError (get_or error "Unknown error")
               | SuccessNoResult => Uncaught (Py.KeyError "result")
               | NotAnObject => Uncaught Py.AttributeError
               end
           end
     end,
     log ++ [Get url]).

(** The six ways a call to [DateConverterCache.convert] can go, each with
    the value and the instance, or the exception, and the log it leaves. *)
Section ConvertCases.
Import DateConverterCache.
Variable server : service.
Variables (year month day : Z) (conversion_type : string).

Let key := _generate_key year month day conversion_type.
Let url := api_url conversion_type year month day.

Inductive convert_case (self : t) (log : list event)
  : Py.result (option date_dict * t) * list event -> Prop :=
| case_hit stored :
    cache self !! key = Some stored ->
    convert_case self log
      (Py.Ok (Some stored, self), log ++ [Print "Returning cached result"])
| case_success result :
    cache self !! key = None ->
    server (length (gets log)) url = Responds (Success result) ->
    convert_case self log
      (Py.Ok (Some result, {| cache := <[key := result]> (cache self) |}),
       log ++ [Get url])
| case_api_failure error :
    cache self !! key = None ->
    server (length (gets log)) url = Responds (Failure error) ->
    convert_case self log
      (Py.Ok (None, self),
       log ++ [Get url; Print ("Error: " +:+ Py.str_of_optional error)])
| case_raise kind message :
    cache self !! key = None ->
    server (length (gets log)) url = Fails kind message ->
    convert_case self log
      (Py.Ok (None, self),
       log ++ [Get url; Print ("Request failed: " +:+ message)])
| case_no_result :
    cache self !! key = None ->
    server (length (gets log)) url = Responds SuccessNoResult ->
    convert_case self log (Py.Raise (Py.KeyError "result"), log ++ [Get url])
| case_not_object :
    cache self !! key = None ->
    server (length (gets log)) url = Responds NotAnObject ->
    convert_case self log (Py.Raise Py.AttributeError, log ++ [Get url]).

End ConvertCases.

(** ** The calendar the specification refers to *)

(** A leap year of the Gregorian calendar: every fourth year, except the
    century years not divisible by 400. *)
Definition gregorian_leap_year (year : Z) : Prop :=
  (year mod 4 = 0 /\ year mod 100 <> 0) \/ year mod 400 = 0.

(** The length of each month of a Gregorian year. *)
Inductive gregorian_month_length (year : Z) : Z -> Z -> Prop :=
| january : gregorian_month_length year 1 31
| february_leap : gregorian_leap_year year -> gregorian_month_length year 2 29
| february_common : ~ gregorian_leap_year year -> gregorian_month_length year 2 28
| march : gregorian_month_length year 3 31
| april : gregorian_month_length year 4 30
| may : gregorian_month_length year 5 31
| june : gregorian_month_length year 6 30
| july : gregorian_month_length year 7 31
| august : gregorian_month_length year 8 31
| september : gregorian_month_length year 9 30
| october : gregorian_month_length year 10 31
| november : gregorian_month_length year 11 30
| december : gregorian_month_length year 12 31.

(** A real calendar date: a day that exists in its month. *)
Definition real_gregorian_date (year month day : Z) : Prop :=
  exists len, gregorian_month_length year month len /\ 1 <= day <= len.


(** The entry the batch loop appends for one date, by the reply to its
    GET; none for a body that makes the loop raise. *)
Definition batch_entry_for (date : Z * Z * Z) (r : reply) : option batch_entry :=
  let '(year, month, day) := date in
  match r with
  | Responds (Success result) => Some (Converted (make_date year month day) result)
  | Responds (Failure error) => Some (NotConverted (make_date year month day) error)
  | Fails _ message => Some (NotConverted (make_date year month day) (Some message))
  | Responds SuccessNoResult | Responds NotAnObject => None
  end.

(** The entries a batch collects when its first GET is the [n]-th of the
    process: one per date, up to the first body that makes the loop raise. *)
Fixpoint batch_entries (server : service) (conversion_type : string) (n : nat)
    (dates : list (Z * Z * Z)) : list batch_entry :=
  match dates with
  | [] => []
  | (year, month, day) :: rest =>
      match batch_entry_for (year, month, day)
              (server n (api_url conversion_type year month day)) with
      | Some entry => entry :: batch_entries server conversion_type (S n) rest
      | None => []
      end
  end.

(** Every GET of a batch over [dates], the first being the [n]-th of the
    process, is answered by a raised [RequestException] or a documented
    body. *)
Definition batch_documented (server : service) (conversion_type : string)
    (n : nat) (dates : list (Z * Z * Z)) : Prop :=
  forall i year month day data,
    dates !! i = Some (year, month, day) ->
    server (n + i)%nat (api_url conversion_type year month day) = Responds data ->
    documented data.

(** The lengths the properties below give [time.sleep] to sleep: finite,
    from 0 to 2 ** 33 seconds. *)
Definition sleepable (seconds : Py.number) : Prop :=
  match seconds with
  | Py.Finite q => (0 <= q)%Q /\ (q <= inject_Z (2 ^ 33))%Q
  | _ => False
  end.

Definition batch_urls (conversion_type : string) (dates : list (Z * Z * Z))
  : list string :=
  map (fun '(year, month, day) => api_url conversion_type year month day) dates.

(** A GET for each date, each followed by a sleep. *)
Definition batch_trace (conversion_type : string) (delay : Q)
    (dates : list (Z * Z * Z)) : list event :=
  flat_map (fun '(year, month, day) =>
              [Get (api_url conversion_type year month day); Sleep delay])
    dates.

(** A GET for each URL, with a sleep between consecutive GETs and only
    there: the discipline the specification words for the batch driver. *)
Fixpoint delays_between (delay : Q) (urls : list string) : list event :=
  match urls with
  | [] => []
  | url :: rest =>
      Get url ::
      match rest with
      | [] => []
      | _ :: _ => Sleep delay :: delays_between delay rest
      end
  end.

(** A result that carries the three fields the console line of the basic
    conversions reads. *)
Definition has_date_fields (date : date_dict) : Prop :=
  is_Some (date !! "year") /\ is_Some (date !! "month") /\ is_Some (date !! "day").

(** The validator [convert_with_validation] picks for a conversion type. *)
Definition validator (conversion_type : string) : Z -> Z -> Z -> bool :=
  if String.eqb conversion_type "ad-to-bs" then is_valid_ad_date
  else is_valid_bs_date.

(** The characters of a printed integer: decimal digits, and the sign. *)
Definition is_digit (c : ascii) : bool :=
  (48 <=? nat_of_ascii c)%nat && (nat_of_ascii c <=? 57)%nat.

Definition is_int_char (c : ascii) : bool :=
  is_digit c || Ascii.eqb c "-".

Fixpoint string_forall (p : ascii -> bool) (s : string) : bool :=
  match s with
  | EmptyString => true
  | String c rest => p c && string_forall p rest
  end.

(** An attempt that fails: the request raises a [RequestException], or the
    reply says success: false. *)
Definition failed (r : reply) : Prop :=
  match r with
  | Fails _ _ | Responds (Failure _) => True
  | Responds _ => False
  end.

(** ** Scenarios *)

(** A service that cannot be reached: every GET raises [ConnectionError]. *)
Definition unreachable : service :=
  fun _ _ => Fails Py.ConnectionError "Connection refused".

(** A service that answers every GET with success: false. *)
Definition rejecting : service :=
  fun _ _ => Responds (Failure (Some "Invalid date")).

(** A service that converts every date. *)
Definition answering : service :=
  fun _ _ => Responds (Success (make_date 2081 6 29)).

(** A service whose second reply is success: false, the others converting. *)
Definition second_rejected : service :=
  fun n _ =>
    if (n =? 1)%nat then Responds (Failure (Some "Invalid date"))
    else Responds (Success (make_date 2081 6 29)).

(** A service whose second reply says success: true and carries no result. *)
Definition second_malformed : service :=
  fun n _ =>
    if (n =? 1)%nat then Responds SuccessNoResult
    else Responds (Success (make_date 2081 6 29)).

(** * Properties *)

(** ** Validation *)

Lemma is_leap_spec year :
  Datetime._is_leap year = true <-> gregorian_leap_year year.
Proof.
  unfold Datetime._is_leap, gregorian_leap_year.
  rewrite andb_true_iff, orb_true_iff, negb_true_iff.
  rewrite !Z.eqb_eq, Z.eqb_neq.
  split; [tauto |].
  intros [H | H]; [tauto |].
  assert (year mod 4 = 0).
  { pose proof (Z.div_mod year 400 ltac:(lia)) as E.
    rewrite H in E.
    replace year with (4 * (100 * (year / 400))) by lia.
    rewrite Z.mul_comm. apply Z.mod_mul. lia. }
  tauto.
Qed.

Lemma days_in_month_spec year month :
  1 <= month <= 12 ->
  gregorian_month_length year month (Datetime._days_in_month year month).
Proof.
  intros Hm. unfold Datetime._days_in_month.
  destruct (Datetime._is_leap year) eqn:Hleap.
  - apply is_leap_spec in Hleap.
    assert (Hc : month = 1 \/ month = 2 \/ month = 3 \/ month = 4 \/ month = 5
                 \/ month = 6 \/ month = 7 \/ month = 8 \/ month = 9
                 \/ month = 10 \/ month = 11 \/ month = 12) by lia.
    repeat destruct Hc as [-> | Hc]; try subst month; simpl;
      try (constructor; fail).
    now apply february_leap.
  - assert (Hn : ~ gregorian_leap_year year).
    { rewrite <- is_leap_spec. congruence. }
    rewrite andb_false_r.
    assert (Hc : month = 1 \/ month = 2 \/ month = 3 \/ month = 4 \/ month = 5
                 \/ month = 6 \/ month = 7 \/ month = 8 \/ month = 9
                 \/ month = 10 \/ month = 11 \/ month = 12) by lia.
    repeat destruct Hc as [-> | Hc]; try subst month; simpl;
      try (constructor; fail).
    now apply february_common.
Qed.

Lemma month_length_functional year month a b :
  gregorian_month_length year month a ->
  gregorian_month_length year month b -> a = b.
Proof.
  intros Ha Hb. inversion Ha; subst; inversion Hb; subst;
    try reflexivity; try lia; contradiction.
Qed.

Lemma month_length_month year month len :
  gregorian_month_length year month len -> 1 <= month <= 12.
Proof. intros H. inversion H; lia. Qed.

(** The [datetime] constructor accepts exactly the real dates of the years
    it supports. *)
Lemma datetime_ok_iff year month day :
  (exists v, Datetime.datetime year month day = Py.Ok v) <->
  Datetime.MINYEAR <= year <= Datetime.MAXYEAR /\ real_gregorian_date year month day.
Proof.
  unfold Datetime.datetime, real_gregorian_date.
  destruct (Z.leb_spec Datetime.MINYEAR year), (Z.leb_spec year Datetime.MAXYEAR);
    simpl; try (split; [intros [v Hv]; discriminate | lia]).
  destruct (Z.leb_spec 1 month), (Z.leb_spec month 12); simpl;
    try (split; [intros [v Hv]; discriminate
                | intros [_ [len [Hl _]]]; apply month_length_month in Hl; lia]).
  pose proof (days_in_month_spec year month ltac:(lia)) as Hdim.
  destruct (Z.leb_spec 1 day), (Z.leb_spec day (Datetime._days_in_month year month));
    simpl.
  - split; [intros _; split; [lia | eauto] | eauto].
  - split; [intros [v Hv]; discriminate |].
    intros [_ [len [Hl Hd]]].
    pose proof (month_length_functional _ _ _ _ Hl Hdim). lia.
  - split; [intros [v Hv]; discriminate | intros [_ [len [_ Hd]]]; lia].
  - split; [intros [v Hv]; discriminate | intros [_ [len [_ Hd]]]; lia].
Qed.

(** The 29th of February exists in 2024 and not in 2023. *)
Example leap_day :
  real_gregorian_date 2024 2 29 /\ ~ real_gregorian_date 2023 2 29.
Proof.
  split.
  - exists 29. split; [| lia].
    apply (days_in_month_spec 2024 2). lia.
  - intros (len & Hlen & Hday).
    pose proof (days_in_month_spec 2023 2 ltac:(lia)) as H28.
    pose proof (month_length_functional _ _ _ _ Hlen H28) as ->.
    vm_compute in Hday. destruct Hday as [_ Hday]. now apply Hday.
Qed.

(** C7. [is_valid_ad_date] returns true exactly for the triples with
    1943 <= year <= 2042, 1 <= month <= 12 and 1 <= day <= 31 that form a
    real Gregorian calendar date; in particular it returns false for
    month 13 and for the 31st or 32nd of a 30-day month. *)
Theorem is_valid_ad_date_iff :
  (forall year month day,
      is_valid_ad_date year month day = true <->
      (1943 <= year <= 2042 /\ 1 <= month <= 12 /\ 1 <= day <= 31
       /\ real_gregorian_date year month day))
  /\ is_valid_ad_date 2024 13 1 = false
  /\ is_valid_ad_date 2024 4 31 = false
  /\ is_valid_ad_date 2024 4 32 = false.
Proof.
  split; [| repeat split; reflexivity].
  intros year month day. unfold is_valid_ad_date.
  destruct (Z.leb_spec 1943 year), (Z.leb_spec year 2042); simpl;
    try (split; [discriminate | lia]).
  destruct (Z.leb_spec 1 month), (Z.leb_spec month 12); simpl;
    try (split; [discriminate | lia]).
  destruct (Z.leb_spec 1 day), (Z.leb_spec day 31); simpl;
    try (split; [discriminate | lia]).
  pose proof (datetime_ok_iff year month day) as Hdt.
  unfold Datetime.MINYEAR, Datetime.MAXYEAR in Hdt.
  destruct (Datetime.datetime year month day) as [v | e].
  - split; [intros _ | reflexivity].
    repeat split; try lia. apply Hdt. eauto.
  - split; [discriminate |].
    intros (_ & _ & _ & Hreal).
    destruct Hdt as [_ Hdt]. destruct Hdt as [v Hv]; [split; [lia | exact Hreal] |].
    discriminate.
Qed.

(** C8. [is_valid_bs_date] returns true exactly for the triples with
    2000 <= year <= 2099, 1 <= month <= 12 and 1 <= day <= 32; there is no
    check of the day against the month, so day 32 passes in every month of
    every year in range. *)
Theorem is_valid_bs_date_iff :
  (forall year month day,
      is_valid_bs_date year month day = true <->
      (2000 <= year <= 2099 /\ 1 <= month <= 12 /\ 1 <= day <= 32))
  /\ (forall year month,
         is_valid_bs_date year month 32 =
         (2000 <=? year) && (year <=? 2099) && (1 <=? month) && (month <=? 12)).
Proof.
  split.
  - intros year month day. unfold is_valid_bs_date.
    destruct (Z.leb_spec 2000 year), (Z.leb_spec year 2099); simpl;
      try (split; [discriminate | lia]).
    destruct (Z.leb_spec 1 month), (Z.leb_spec month 12); simpl;
      try (split; [discriminate | lia]).
    destruct (Z.leb_spec 1 day), (Z.leb_spec day 32); simpl;
      try (split; [discriminate | lia]).
    split; [lia | reflexivity].
  - intros year month. unfold is_valid_bs_date.
    destruct (2000 <=? year), (year <=? 2099), (1 <=? month), (month <=? 12);
      reflexivity.
Qed.

(** ** Formatting *)

(** C9. The dictionary [{year: 2081, month: 6, day: 29}] is formatted as
    2081/06/29 under YYYY/MM/DD and as 29-06-2081 under DD-MM-YYYY. *)
Theorem format_nepali_date_examples :
  format_nepali_date (Some (make_date 2081 6 29)) "YYYY/MM/DD"
    = Py.Ok "2081/06/29"
  /\ format_nepali_date (Some (make_date 2081 6 29)) "DD-MM-YYYY"
    = Py.Ok "29-06-2081".
Proof. split; vm_compute; reflexivity. Qed.

Lemma falsy_cases {V} (d : option (gmap string V)) :
  Py.truthy d = false <-> d = None \/ d = Some ∅.
Proof.
  destruct d as [m |]; simpl.
  - rewrite negb_false_iff, bool_decide_eq_true.
    split; [intros ->; now right | intros [H | H]; congruence].
  - split; [now left | reflexivity].
Qed.

(** C10. For a falsy dictionary ([None] or the empty one)
    [format_nepali_date] returns the empty string whatever the format,
    raising no [KeyError] or [TypeError] as a field access would; and
    [format_ad_date] agrees with [format_nepali_date] on every input. *)
Theorem format_falsy_is_empty :
  (forall (d : option date_dict) (format_str : string),
      Py.truthy d = false ->
      format_nepali_date d format_str = Py.Ok EmptyString
      /\ format_ad_date d format_str = Py.Ok EmptyString)
  /\ (forall (format_str : string),
         format_nepali_date None format_str = Py.Ok EmptyString
         /\ format_nepali_date (Some ∅) format_str = Py.Ok EmptyString)
  /\ (forall (d : option date_dict) (format_str : string),
         format_ad_date d format_str = format_nepali_date d format_str).
Proof.
  assert (Hfalsy : forall (d : option date_dict) f,
             Py.truthy d = false -> format_nepali_date d f = Py.Ok EmptyString).
  { intros d f H. unfold format_nepali_date. now rewrite H. }
  split; [| split].
  - intros d f H. unfold format_ad_date. split; now apply Hfalsy.
  - intros f. split; apply Hfalsy; apply falsy_cases; [now left | now right].
  - intros d f. reflexivity.
Qed.

(** The empty dictionary, under the default format. *)
Lemma format_falsy_is_empty_witness :
  Py.truthy (Some (∅ : date_dict)) = false
  /\ format_nepali_date (Some ∅) "YYYY/MM/DD" = Py.Ok EmptyString
  /\ format_ad_date (Some ∅) "YYYY/MM/DD" = Py.Ok EmptyString.
Proof.
  split; [reflexivity |].
  apply (proj1 format_falsy_is_empty (Some ∅) "YYYY/MM/DD").
  reflexivity.
Defined.

(** ** The log *)

Lemma gets_app l1 l2 : gets (l1 ++ l2) = gets l1 ++ gets l2.
Proof. apply omap_app. Qed.

Lemma effects_app l1 l2 : effects (l1 ++ l2) = effects l1 ++ effects l2.
Proof. apply List.filter_app. Qed.

Lemma gets_effects l : gets (effects l) = gets l.
Proof.
  induction l as [| [u | s | p] l IH]; simpl; try rewrite IH; reflexivity.
Qed.

Lemma sleep_nonnegative (z : Z) : 0 <= z -> Qle_bool 0 (inject_Z z) = true.
Proof.
  intros H. unfold Qle_bool. simpl. apply Z.leb_le. lia.
Qed.

(** ** The clock *)

Lemma clock_accepts (q : Q) :
  (0 <= q)%Q -> (q <= inject_Z (2 ^ 33))%Q ->
  negb (Qle_bool CLOCK_MIN (q * inject_Z (10 ^ 9))
        && Qle_bool (q * inject_Z (10 ^ 9)) CLOCK_MAX) = false.
Proof.
  intros Hlow Hhigh. apply negb_false_iff, andb_true_iff.
  assert (Hbillion : (0 <= inject_Z (10 ^ 9))%Q) by (unfold Qle; simpl; lia).
  split; apply Qle_bool_iff.
  - apply Qle_trans with 0%Q; [unfold CLOCK_MIN, Qle; simpl; lia |].
    now apply Qmult_le_0_compat.
  - apply Qle_trans with (inject_Z (2 ^ 33) * inject_Z (10 ^ 9))%Q.
    + now apply Qmult_le_compat_r.
    + unfold CLOCK_MAX, Qle. simpl. lia.
Qed.

(** A length from 0 to 2 ** 33 seconds is slept. *)
Lemma time_sleep_sleepable (delay : Py.number) :
  sleepable delay ->
  exists q, delay = Py.Finite q
            /\ forall log, time_sleep delay log = (Py.Ok tt, log ++ [Sleep q]).
Proof.
  destruct delay as [q | | |]; simpl; try contradiction.
  intros [Hlow Hhigh]. exists q. split; [reflexivity |]. intros log.
  unfold time_sleep. rewrite (clock_accepts q Hlow Hhigh).
  apply Qle_bool_iff in Hlow. now rewrite Hlow.
Qed.

(** The sleep of the retry loop after attempt [i]: slept up to attempt 33,
    refused by the clock from attempt 34 on. *)
Lemma time_sleep_power (i : Z) (log : list event) :
  i <= 33 ->
  time_sleep (Py.Finite (inject_Z (2 ^ i))) log
  = (Py.Ok tt, log ++ [Sleep (inject_Z (2 ^ i))]).
Proof.
  intros Hi.
  destruct (time_sleep_sleepable (Py.Finite (inject_Z (2 ^ i)))) as (q & [= <-] & H).
  - assert (Hpow : 0 <= 2 ^ i <= 2 ^ 33).
    { split; [apply Z.pow_nonneg; lia |].
      destruct (Z.le_gt_cases 0 i).
      - apply Z.pow_le_mono_r; lia.
      - rewrite Z.pow_neg_r by lia. lia. }
    unfold sleepable, Qle. simpl. lia.
  - apply H.
Qed.

Lemma time_sleep_power_overflow (i : Z) (log : list event) :
  34 <= i ->
  time_sleep (Py.Finite (inject_Z (2 ^ i))) log = (Py.Raise Py.OverflowError, log).
Proof.
  intros Hi. unfold time_sleep.
  assert (Hbig : 2 ^ 34 <= 2 ^ i) by (apply Z.pow_le_mono_r; lia).
  replace (Qle_bool (inject_Z (2 ^ i) * inject_Z (10 ^ 9)) CLOCK_MAX) with false.
  - now rewrite andb_false_r.
  - symmetry. apply not_true_is_false. intros H. apply Qle_bool_iff in H.
    unfold CLOCK_MAX, Qle in H. simpl in H. lia.
Qed.

(** ** Retry *)

Section RetryProperties.
Variable server : service.
Variables (url : string) (max_retries : Z).

(** One pass through the loop body, by the reply it meets. *)
Lemma retry_pass_success attempt rest log result :
  server (length (gets log)) url = Responds (Success result) ->
  retry_loop server url max_retries (attempt :: rest) log
  = (Py.Ok (Some result), log ++ [Get url]).
Proof.
  intros H. simpl. unfold bind, try_except, fetch. rewrite H. reflexivity.
Qed.

Lemma retry_pass_api_failure attempt rest log error :
  server (length (gets log)) url = Responds (Failure error) ->
  retry_loop server url max_retries (attempt :: rest) log
  = retry_loop server url max_retries rest
      (log ++ [Get url;
               Print ("Attempt " +:+ Py.str_of_int attempt +:+ ": "
                        +:+ Py.str_of_optional error)]).
Proof.
  intros H. simpl. unfold bind, try_except, fetch, print, ret. rewrite H.
  rewrite <- app_assoc. reflexivity.
Qed.

Lemma retry_pass_no_result attempt rest log :
  server (length (gets log)) url = Responds SuccessNoResult ->
  retry_loop server url max_retries (attempt :: rest) log
  = (Py.Raise (Py.KeyError "result"), log ++ [Get url]).
Proof.
  intros H. simpl. unfold bind, try_except, fetch, raise. rewrite H. reflexivity.
Qed.

Lemma retry_pass_not_object attempt rest log :
  server (length (gets log)) url = Responds NotAnObject ->
  retry_loop server url max_retries (attempt :: rest) log
  = (Py.Raise Py.AttributeError, log ++ [Get url]).
Proof.
  intros H. simpl. unfold bind, try_except, fetch, raise. rewrite H. reflexivity.
Qed.

Lemma retry_pass_raise_again attempt rest log kind message :
  server (length (gets log)) url = Fails kind message ->
  attempt < max_retries ->
  attempt <= 33 ->
  retry_loop server url max_retries (attempt :: rest) log
  = retry_loop server url max_retries rest
      (log ++ [Get url;
               Print ("Attempt " +:+ Py.str_of_int attempt +:+ " failed: " +:+ message);
               Print ("Retrying in " +:+ Py.str_of_int (2 ^ attempt) +:+ " seconds...");
               Sleep (inject_Z (2 ^ attempt))]).
Proof.
  intros H Hlt Hsmall. simpl. unfold bind, try_except, fetch, print, ret.
  rewrite H. apply Z.ltb_lt in Hlt. rewrite Hlt.
  rewrite time_sleep_power by exact Hsmall.
  rewrite <- !app_assoc. reflexivity.
Qed.

Lemma retry_pass_raise_overflow attempt rest log kind message :
  server (length (gets log)) url = Fails kind message ->
  attempt < max_retries ->
  34 <= attempt ->
  retry_loop server url max_retries (attempt :: rest) log
  = (Py.Raise Py.OverflowError,
     log ++ [Get url;
             Print ("Attempt " +:+ Py.str_of_int attempt +:+ " failed: " +:+ message);
             Print ("Retrying in " +:+ Py.str_of_int (2 ^ attempt) +:+ " seconds...")]).
Proof.
  intros H Hlt Hbig. simpl. unfold bind, try_except, fetch, print, ret.
  rewrite H. apply Z.ltb_lt in Hlt. rewrite Hlt.
  rewrite time_sleep_power_overflow by exact Hbig.
  rewrite <- !app_assoc. reflexivity.
Qed.

Lemma retry_pass_raise_last attempt rest log kind message :
  server (length (gets log)) url = Fails kind message ->
  max_retries <= attempt ->
  retry_loop server url max_retries (attempt :: rest) log
  = (Py.Ok None,
     log ++ [Get url;
             Print ("Attempt " +:+ Py.str_of_int attempt +:+ " failed: " +:+ message);
             Print "All retry attempts failed"]).
Proof.
  intros H Hge. simpl. unfold bind, try_except, fetch, print, ret.
  rewrite H. apply Z.ltb_ge in Hge. rewrite Hge.
  rewrite <- !app_assoc. reflexivity.
Qed.

(** Whatever the service replies, the loop only adds to the log. *)
Lemma retry_loop_extends attempts :
  forall log, exists value new,
    retry_loop server url max_retries attempts log = (value, log ++ new).
Proof.
  induction attempts as [| attempt rest IH]; intros log.
  - exists (Py.Ok None), []. simpl. unfold ret. now rewrite app_nil_r.
  - destruct (server (length (gets log)) url)
      as [kind message | [result | error | |]] eqn:E.
    + destruct (Z.lt_ge_cases attempt max_retries) as [Hlt | Hge].
      * destruct (Z.le_gt_cases attempt 33) as [Hsmall | Hbig].
        -- rewrite (retry_pass_raise_again _ _ _ _ _ E Hlt Hsmall).
           edestruct IH as (value & new & ->).
           rewrite <- app_assoc. eauto.
        -- rewrite (retry_pass_raise_overflow _ _ _ _ _ E Hlt) by lia. eauto.
      * rewrite (retry_pass_raise_last _ _ _ _ _ E Hge). eauto.
    + rewrite (retry_pass_success _ _ _ _ E). eauto.
    + rewrite (retry_pass_api_failure _ _ _ _ E).
      edestruct IH as (value & new & ->).
      rewrite <- app_assoc. eauto.
    + rewrite (retry_pass_no_result _ _ _ E). eauto.
    + rewrite (retry_pass_not_object _ _ _ E). eauto.
Qed.



End RetryProperties.

Lemma schedule_gets url (f : Z -> Q) (l : list Z) :
  gets (flat_map (fun i => [Get url; Sleep (f i)]) l ++ [Get url])
  = repeat url (S (length l)).
Proof.
  induction l as [| i l IH]; simpl; [reflexivity |].
  now rewrite IH.
Qed.


Lemma sleeps_effects l : sleeps (effects l) = sleeps l.
Proof.
  induction l as [| [u | s | p] l IH]; simpl; try rewrite IH; reflexivity.
Qed.


(** C2 (amended). With [max_retries = 0] (or less) the loop body never
    runs: no GET is issued, nothing is logged and [None] is returned.  One
    attempt at least is made exactly when [max_retries >= 1]: the call then
    starts with a GET. *)
Theorem convert_with_retry_no_attempt
    (server : service) (year month day : Z) (conversion_type : string)
    (log : list event) :
  convert_with_retry server year month day conversion_type 0 log
  = (Py.Ok None, log)
  /\ (forall N, N <= 0 ->
        convert_with_retry server year month day conversion_type N log
        = (Py.Ok None, log))
  /\ (forall N, 1 <= N ->
        exists value new,
          convert_with_retry server year month day conversion_type N log
          = (value, log ++ Get (api_url conversion_type year month day) :: new)).
Proof.
  assert (Hnone : forall N, N <= 0 ->
             convert_with_retry server year month day conversion_type N log
             = (Py.Ok None, log)).
  { intros N HN. unfold convert_with_retry, range.
    rewrite seqZ_nil by lia. reflexivity. }
  split; [apply Hnone; lia | split; [exact Hnone |]].
  intros N HN. unfold convert_with_retry, range.
  set (url := api_url conversion_type year month day).
  rewrite seqZ_cons by lia.
  set (rest := seqZ (Z.succ 1) (Z.pred (N + 1 - 1))).
  destruct (server (length (gets log)) url)
    as [kind message | [result | error | |]] eqn:E.
  - destruct (Z.lt_ge_cases 1 N) as [Hlt | Hge].
    + rewrite (retry_pass_raise_again _ _ _ _ _ _ _ _ E Hlt) by lia.
      edestruct (retry_loop_extends server url N rest) as (value & new & ->).
      rewrite <- app_assoc. simpl. eauto.
    + rewrite (retry_pass_raise_last _ _ _ _ _ _ _ _ E Hge). simpl. eauto.
  - rewrite (retry_pass_success _ _ _ _ _ _ _ E). eauto.
  - rewrite (retry_pass_api_failure _ _ _ _ _ _ _ E).
    edestruct (retry_loop_extends server url N rest) as (value & new & ->).
    rewrite <- app_assoc. simpl. eauto.
  - rewrite (retry_pass_no_result _ _ _ _ _ _ E). eauto.
  - rewrite (retry_pass_not_object _ _ _ _ _ _ E). eauto.
Qed.

(** ** Cache *)

Section CacheProperties.
Import DateConverterCache.
Variable server : service.
Variables (year month day : Z) (conversion_type : string).

Let key := _generate_key year month day conversion_type.
Let url := api_url conversion_type year month day.

Lemma convert_hit self log stored :
  cache self !! key = Some stored ->
  convert server self year month day conversion_type log
  = (Py.Ok (Some stored, self), log ++ [Print "Returning cached result"]).
Proof.
  intros H. unfold convert. fold key. rewrite H. reflexivity.
Qed.

Lemma convert_miss_success self log result :
  cache self !! key = None ->
  server (length (gets log)) url = Responds (Success result) ->
  convert server self year month day conversion_type log
  = (Py.Ok (Some result, {| cache := <[key := result]> (cache self) |}),
     log ++ [Get url]).
Proof.
  intros H E. unfold convert. fold key url. rewrite H.
  unfold try_except, bind, fetch. rewrite E. reflexivity.
Qed.

Lemma convert_miss_api_failure self log error :
  cache self !! key = None ->
  server (length (gets log)) url = Responds (Failure error) ->
  convert server self year month day conversion_type log
  = (Py.Ok (None, self),
     log ++ [Get url; Print ("Error: " +:+ Py.str_of_optional error)]).
Proof.
  intros H E. unfold convert. fold key url. rewrite H.
  unfold try_except, bind, fetch, print, ret. rewrite E.
  rewrite <- app_assoc. reflexivity.
Qed.

Lemma convert_miss_raise self log kind message :
  cache self !! key = None ->
  server (length (gets log)) url = Fails kind message ->
  convert server self year month day conversion_type log
  = (Py.Ok (None, self),
     log ++ [Get url; Print ("Request failed: " +:+ message)]).
Proof.
  intros H E. unfold convert. fold key url. rewrite H.
  unfold try_except, bind, fetch, print, ret. rewrite E.
  rewrite <- app_assoc. reflexivity.
Qed.

Lemma convert_miss_no_result self log :
  cache self !! key = None ->
  server (length (gets log)) url = Responds SuccessNoResult ->
  convert server self year month day conversion_type log
  = (Py.Raise (Py.KeyError "result"), log ++ [Get url]).
Proof.
  intros H E. unfold convert. fold key url. rewrite H.
  unfold try_except, bind, fetch, raise. rewrite E. reflexivity.
Qed.

Lemma convert_miss_not_object self log :
  cache self !! key = None ->
  server (length (gets log)) url = Responds NotAnObject ->
  convert server self year month day conversion_type log
  = (Py.Raise Py.AttributeError, log ++ [Get url]).
Proof.
  intros H E. unfold convert. fold key url. rewrite H.
  unfold try_except, bind, fetch, raise. rewrite E. reflexivity.
Qed.

Lemma convert_cases self log :
  convert_case server year month day conversion_type self log
    (convert server self year month day conversion_type log).
Proof.
  destruct (cache self !! key) as [stored |] eqn:H.
  - rewrite (convert_hit _ _ _ H). now constructor.
  - destruct (server (length (gets log)) url)
      as [kind message | [result | error | |]] eqn:E.
    + rewrite (convert_miss_raise _ _ _ _ H E). eapply case_raise; eassumption.
    + rewrite (convert_miss_success _ _ _ H E). now constructor.
    + rewrite (convert_miss_api_failure _ _ _ H E). now constructor.
    + rewrite (convert_miss_no_result _ _ H E). now constructor.
    + rewrite (convert_miss_not_object _ _ H E). now constructor.
Qed.

(** A call on an instance that has not stored the key starts with a GET,
    whatever the reply. *)
Lemma convert_miss_gets self log :
  cache self !! key = None ->
  exists outcome new,
    convert server self year month day conversion_type log
    = (outcome, log ++ Get url :: new).
Proof.
  intros H.
  destruct (server (length (gets log)) url)
    as [kind message | [result | error | |]] eqn:E.
  - rewrite (convert_miss_raise _ _ _ _ H E). simpl. eauto.
  - rewrite (convert_miss_success _ _ _ H E). simpl. eauto.
  - rewrite (convert_miss_api_failure _ _ _ H E). simpl. eauto.
  - rewrite (convert_miss_no_result _ _ H E). simpl. eauto.
  - rewrite (convert_miss_not_object _ _ H E). simpl. eauto.
Qed.

(** After a call that returned a result, the same call is answered from
    the mapping: same result, same instance, no GET. *)
Lemma convert_again_from_cache self log result self1 log1 :
  convert server self year month day conversion_type log
  = (Py.Ok (Some result, self1), log1) ->
  cache self1 !! key = Some result
  /\ convert server self1 year month day conversion_type log1
     = (Py.Ok (Some result, self1), log1 ++ [Print "Returning cached result"]).
Proof.
  intros Hrun.
  assert (Hstored : cache self1 !! key = Some result).
  { pose proof (convert_cases self log) as Hc. rewrite Hrun in Hc.
    inversion Hc; subst; [assumption |].
    simpl. apply lookup_insert_eq. }
  split; [exact Hstored | now apply convert_hit].
Qed.

(** A call that returned [None] met a failing reply, and left the instance
    as it was. *)
Lemma convert_returned_none self log self1 log1 :
  convert server self year month day conversion_type log
  = (Py.Ok (None, self1), log1) ->
  self1 = self
  /\ cache self !! key = None
  /\ failed (server (length (gets log)) url).
Proof.
  intros Hrun. pose proof (convert_cases self log) as Hc. rewrite Hrun in Hc.
  inversion Hc as [| | error Hmiss E | kind message Hmiss E | |]; subst;
    (split; [reflexivity |]); (split; [exact Hmiss |]);
    fold url in E; rewrite E; exact I.
Qed.

End CacheProperties.

(** C3. When a first [convert] on an instance that has not yet stored the
    key succeeds, it issued one GET; the same call repeated on that instance
    returns the result stored in the mapping and issues none: one GET in
    total for the two calls. *)
Theorem cache_idempotence
    (server : service) (self : DateConverterCache.t)
    (year month day : Z) (conversion_type : string) (log : list event)
    (result : date_dict) (self1 : DateConverterCache.t) (log1 : list event) :
  DateConverterCache.cache self
    !! DateConverterCache._generate_key year month day conversion_type = None ->
  DateConverterCache.convert server self year month day conversion_type log
  = (Py.Ok (Some result, self1), log1) ->
  exists log2,
    DateConverterCache.convert server self1 year month day conversion_type log1
    = (Py.Ok (Some result, self1), log2)
    /\ DateConverterCache.cache self1
         !! DateConverterCache._generate_key year month day conversion_type
       = Some result
    /\ gets log1 = gets log ++ [api_url conversion_type year month day]
    /\ gets log2 = gets log ++ [api_url conversion_type year month day].
Proof.
  intros Hfresh Hrun.
  destruct (convert_again_from_cache _ _ _ _ _ _ _ _ _ _ Hrun) as [Hstored Hagain].
  exists (log1 ++ [Print "Returning cached result"]).
  assert (Hgets : gets log1 = gets log ++ [api_url conversion_type year month day]).
  { pose proof (convert_cases server year month day conversion_type self log) as Hc.
    rewrite Hrun in Hc. inversion Hc; subst; [congruence |].
    now rewrite gets_app. }
  repeat split; try assumption.
  rewrite gets_app, Hgets. simpl. now rewrite app_nil_r.
Qed.

(** C4. When the lookup of a [convert] call fails (the request raises a
    [RequestException]: timeout, network failure, HTTP error; or the reply
    says success: false), the call returns with the instance, and so its
    mapping, exactly as it was.  On an instance that has not stored the key
    the call issues its one GET and returns [None], the key is still absent
    afterwards, and the next call with the same arguments, whenever it is
    made, goes to the network again. *)
Theorem cache_failure_not_stored
    (server : service) (self : DateConverterCache.t)
    (year month day : Z) (conversion_type : string) (log : list event) :
  failed (server (length (gets log)) (api_url conversion_type year month day)) ->
  exists value new,
    DateConverterCache.convert server self year month day conversion_type log
    = (Py.Ok (value, self), log ++ new)
    /\ (DateConverterCache.cache self
          !! DateConverterCache._generate_key year month day conversion_type = None ->
        value = None
        /\ gets new = [api_url conversion_type year month day]
        /\ (forall later, exists outcome more,
              DateConverterCache.convert server self year month day conversion_type
                later
              = (outcome,
                 later ++ Get (api_url conversion_type year month day) :: more))).
Proof.
  intros Hfail.
  pose proof (convert_cases server year month day conversion_type self log) as Hc.
  inversion Hc as [stored Hhit Hrun | result Hmiss E Hrun | error Hmiss E Hrun
                   | kind message Hmiss E Hrun | Hmiss E Hrun | Hmiss E Hrun];
    try (rewrite E in Hfail; contradiction).
  - eexists _, _. split; [reflexivity |]. intros Hmiss. congruence.
  - eexists _, _. split; [reflexivity |]. intros _.
    split; [reflexivity |]. split; [reflexivity |].
    intros later. now apply convert_miss_gets.
  - eexists _, _. split; [reflexivity |]. intros _.
    split; [reflexivity |]. split; [reflexivity |].
    intros later. now apply convert_miss_gets.
Qed.

(** ** Batch *)

Lemma make_date_fields year month day :
  make_date year month day !! "year" = Some year
  /\ make_date year month day !! "month" = Some month
  /\ make_date year month day !! "day" = Some day.
Proof. repeat split; vm_compute; reflexivity. Qed.


Section BatchProperties.
Variable server : service.
Variables (conversion_type : string) (delay : Q).
Hypothesis delay_sleepable : sleepable (Py.Finite delay).

Lemma batch_documented_tail n date rest :
  batch_documented server conversion_type n (date :: rest) ->
  batch_documented server conversion_type (S n) rest.
Proof.
  intros H i year month day data Hi E.
  apply (H (S i) year month day data Hi).
  now replace (n + S i)%nat with (S n + i)%nat by lia.
Qed.

Lemma batch_loop_run dates :
  forall results log,
    batch_documented server conversion_type (length (gets log)) dates ->
    batch_loop server conversion_type (Py.Finite delay) dates results log
    = (Py.Ok (results
              ++ batch_entries server conversion_type (length (gets log)) dates),
       log ++ batch_trace conversion_type delay dates).
Proof.
  destruct (time_sleep_sleepable _ delay_sleepable) as (q & [= <-] & Hsleep).
  induction dates as [| [[year month] day] rest IH]; intros results log Hdoc.
  - simpl. unfold ret. now rewrite !app_nil_r.
  - assert (Hn : length (gets ((log ++ [Get (api_url conversion_type year month day)])
                                 ++ [Sleep delay]))
                 = S (length (gets log))).
    { rewrite !gets_app, !length_app. simpl. lia. }
    pose proof (Hdoc 0%nat year month day) as Hfirst.
    rewrite Nat.add_0_r in Hfirst.
    apply batch_documented_tail in Hdoc. rewrite <- Hn in Hdoc.
    cbn [batch_loop batch_entries batch_trace flat_map].
    unfold bind, try_except, fetch, ret, raise.
    destruct (server (length (gets log)) (api_url conversion_type year month day))
      as [kind message | [result | error | |]];
      try (exfalso; exact (Hfirst _ eq_refl eq_refl));
      cbv beta iota; rewrite Hsleep, (IH _ _ Hdoc), Hn, <- !app_assoc;
      reflexivity.
Qed.



Lemma batch_trace_gets dates :
  gets (batch_trace conversion_type delay dates) = batch_urls conversion_type dates.
Proof.
  induction dates as [| [[year month] day] rest IH]; simpl;
    [reflexivity | now rewrite IH].
Qed.

Lemma batch_trace_sleeps dates :
  sleeps (batch_trace conversion_type delay dates) = repeat delay (length dates).
Proof.
  induction dates as [| [[year month] day] rest IH]; simpl;
    [reflexivity | now rewrite IH].
Qed.

End BatchProperties.


(** C6 (amended). For a delay [time.sleep] sleeps (a finite number from 0
    to 2 ** 33 seconds) and replies that are a raised [RequestException] or
    a documented body, [convert_batch_dates] sleeps for the configured delay
    after every GET, the last one included, and never before the first:
    what it adds to the log is, for each date in turn, the GET followed by
    the sleep. *)
Theorem convert_batch_dates_sleeps_after_each
    (server : service) (dates : list (Z * Z * Z)) (conversion_type : string)
    (delay : Q) (log : list event) :
  sleepable (Py.Finite delay) ->
  batch_documented server conversion_type (length (gets log)) dates ->
  snd (convert_batch_dates server dates conversion_type (Py.Finite delay) log)
  = log ++ flat_map (fun '(year, month, day) =>
                       [Get (api_url conversion_type year month day); Sleep delay])
             dates
  /\ sleeps (batch_trace conversion_type delay dates)
     = repeat delay (length dates).
Proof.
  intros Hdelay Hdoc.
  unfold convert_batch_dates. rewrite batch_loop_run by assumption.
  split; [reflexivity | apply batch_trace_sleeps].
Qed.

(** ** The claims on concrete runs *)



(** With 35 attempts allowed against a service that cannot be reached, the
    sleep of 2 ** 34 seconds after attempt 34 is refused by the clock: the
    call raises [OverflowError] after 34 GETs, and attempt 35 is not made. *)
Example retry_backoff_overflows :
  let run := convert_with_retry unreachable 2024 10 15 "ad-to-bs" 35 [] in
  fst run = Py.Raise Py.OverflowError
  /\ length (gets (snd run)) = 34%nat
  /\ last (sleeps (snd run)) = Some (inject_Z (2 ^ 33)).
Proof. vm_compute. repeat split; reflexivity. Qed.

(** With [max_retries = 0] no GET is issued at all, where C2 as stated
    asks for one. *)
Lemma retry_zero_issues_no_get :
  let run := convert_with_retry answering 2024 10 15 "ad-to-bs" 0 [] in
  run = (Py.Ok None, [])
  /\ length (gets (snd run)) = 0%nat
  /\ length (gets (snd run)) <> 1%nat.
Proof.
  vm_compute. repeat split; try reflexivity. discriminate.
Qed.

(** No attempt with [max_retries = 0], a first GET with [max_retries = 1]. *)
Lemma convert_with_retry_no_attempt_witness :
  convert_with_retry unreachable 2024 10 15 "ad-to-bs" 0 [] = (Py.Ok None, [])
  /\ exists value new,
       convert_with_retry unreachable 2024 10 15 "ad-to-bs" 1 []
       = (value, [] ++ Get (api_url "ad-to-bs" 2024 10 15) :: new).
Proof.
  destruct (convert_with_retry_no_attempt unreachable 2024 10 15 "ad-to-bs" [])
    as (Hzero & _ & Hone).
  split; [exact Hzero | apply Hone; lia].
Defined.

(** A fresh instance, asked twice for 2024-10-15. *)
Lemma cache_idempotence_witness :
  let key := DateConverterCache._generate_key 2024 10 15 "ad-to-bs" in
  let url := api_url "ad-to-bs" 2024 10 15 in
  let result := make_date 2081 6 29 in
  let self1 := {| DateConverterCache.cache := <[key := result]> ∅ |} in
  exists log2,
    DateConverterCache.convert answering self1 2024 10 15 "ad-to-bs" [Get url]
    = (Py.Ok (Some result, self1), log2)
    /\ DateConverterCache.cache self1 !! key = Some result
    /\ gets [Get url] = gets [] ++ [url]
    /\ gets log2 = gets [] ++ [url].
Proof.
  apply (cache_idempotence answering DateConverterCache.__init__
           2024 10 15 "ad-to-bs" []).
  - vm_compute. reflexivity.
  - vm_compute. reflexivity.
Defined.

(** A fresh instance whose first call meets a connection error. *)
Lemma cache_failure_not_stored_witness :
  let key := DateConverterCache._generate_key 2024 10 15 "ad-to-bs" in
  let url := api_url "ad-to-bs" 2024 10 15 in
  failed (unreachable (length (gets [])) url)
  /\ exists value new,
       DateConverterCache.convert unreachable DateConverterCache.__init__
         2024 10 15 "ad-to-bs" []
       = (Py.Ok (value, DateConverterCache.__init__), [] ++ new)
       /\ (DateConverterCache.cache DateConverterCache.__init__ !! key = None ->
           value = None
           /\ gets new = [url]
           /\ (forall later, exists outcome more,
                 DateConverterCache.convert unreachable DateConverterCache.__init__
                   2024 10 15 "ad-to-bs" later
                 = (outcome, later ++ Get url :: more))).
Proof.
  split; [exact I |].
  apply (cache_failure_not_stored unreachable DateConverterCache.__init__
           2024 10 15 "ad-to-bs" []).
  simpl. exact I.
Defined.

(** The same for a reply that says success: false: the instance that
    already holds another date keeps exactly that one. *)
Example cache_rejection_not_stored :
  let other := DateConverterCache._generate_key 2024 10 15 "ad-to-bs" in
  let self := {| DateConverterCache.cache := <[other := make_date 2081 6 29]> ∅ |} in
  let run := DateConverterCache.convert rejecting self 2024 13 1 "ad-to-bs" [] in
  fst run = Py.Ok (None, self)
  /\ gets (snd run) = [api_url "ad-to-bs" 2024 13 1].
Proof. vm_compute. split; reflexivity. Qed.


(** The batch of the specification: three dates, the second rejected. *)
Example batch_of_three_second_rejected :
  let run := convert_batch_dates second_rejected
               [(2024, 1, 1); (2024, 13, 1); (2024, 12, 31)] "ad-to-bs"
               (Py.Finite (1 # 10)) [] in
  match fst run with
  | Py.Ok results =>
      map entry_success results = [true; false; true]
      /\ map entry_input results
         = [make_date 2024 1 1; make_date 2024 13 1; make_date 2024 12 31]
  | Py.Raise _ => False
  end.
Proof. vm_compute. split; reflexivity. Qed.


(** A batch of one date ends with a sleep, after its only GET: not the
    discipline of C6 as stated. *)
Lemma batch_sleeps_after_last_get :
  let url := api_url "ad-to-bs" 2024 1 1 in
  let run := convert_batch_dates answering [(2024, 1, 1)] "ad-to-bs"
               (Py.Finite (1 # 10)) [] in
  snd run = [Get url; Sleep (1 # 10)]
  /\ last (snd run) = Some (Sleep (1 # 10))
  /\ snd run <> delays_between (1 # 10) (batch_urls "ad-to-bs" [(2024, 1, 1)]).
Proof.
  vm_compute. repeat split; try reflexivity. discriminate.
Qed.

(** The same batch: three GETs, each followed by its sleep. *)
Lemma convert_batch_dates_sleeps_after_each_witness :
  let dates := [(2024, 1, 1); (2024, 13, 1); (2024, 12, 31)] in
  snd (convert_batch_dates second_rejected dates "ad-to-bs" (Py.Finite (1 # 10)) [])
  = [] ++ flat_map (fun '(year, month, day) =>
                      [Get (api_url "ad-to-bs" year month day); Sleep (1 # 10)])
            dates
  /\ sleeps (batch_trace "ad-to-bs" (1 # 10) dates) = repeat (1 # 10) (length dates).
Proof.
  apply (convert_batch_dates_sleeps_after_each second_rejected
           [(2024, 1, 1); (2024, 13, 1); (2024, 12, 31)] "ad-to-bs" (1 # 10) []).
  - unfold sleepable, Qle. simpl. lia.
  - intros i year month day data _. unfold second_rejected.
    destruct (_ =? 1)%nat; intros [= <-]; exact I.
Defined.

(** A negative delay is refused by [time.sleep]: the batch then stops with
    [ValueError] after its first GET; so it does, with [OverflowError], for
    a delay of 10 ** 10 seconds, of minus 10 ** 10 seconds, and for an
    infinite one. *)
Remark convert_batch_dates_negative_delay :
  let dates := [(2024, 1, 1); (2024, 6, 15)] in
  let stopped e := (@Py.Raise (list batch_entry) e, [Get (api_url "ad-to-bs" 2024 1 1)]) in
  convert_batch_dates answering dates "ad-to-bs" (Py.Finite (-1 # 10)) []
  = stopped Py.ValueError
  /\ convert_batch_dates answering dates "ad-to-bs" (Py.Finite (inject_Z (10 ^ 10))) []
     = stopped Py.OverflowError
  /\ convert_batch_dates answering dates "ad-to-bs"
       (Py.Finite (inject_Z (- 10 ^ 10))) []
     = stopped Py.OverflowError
  /\ convert_batch_dates answering dates "ad-to-bs" Py.Infinity []
     = stopped Py.OverflowError
  /\ convert_batch_dates answering dates "ad-to-bs" Py.NaN []
     = stopped Py.ValueError.
Proof. vm_compute. repeat split; reflexivity. Qed.

(** * Further properties of the module *)

(** ** Retry, against any service *)

Section RetryBudget.
Variable server : service.
Variables (url : string) (max_retries : Z).

(** What the loop over the attempts [a .. max_retries] does, whatever the
    service replies: at most one GET per attempt, a sleep of [2 ^ i] after
    some of the attempts [i] below [max_retries] and no other, a result only
    if the last GET was answered with it, and no exception but those of a
    malformed body and of a sleep the clock refuses. *)
Lemma retry_loop_budget (k : nat) :
  forall a log,
    a + Z.of_nat k = max_retries + 1 ->
    exists outcome new slept,
      retry_loop server url max_retries (seqZ a (Z.of_nat k)) log
      = (outcome, log ++ new)
      /\ (length (gets new) <= k)%nat
      /\ gets new = repeat url (length (gets new))
      /\ sublist slept (seqZ a (Z.of_nat k - 1))
      /\ Forall (fun i => i <= 33) slept
      /\ sleeps new = map (fun i => inject_Z (2 ^ i)) slept
      /\ match outcome with
         | Py.Ok _ => True
         | Py.Raise e =>
             e = Py.KeyError "result" \/ e = Py.AttributeError
             \/ (e = Py.OverflowError /\ 34 < max_retries)
         end
      /\ (forall result, outcome = Py.Ok (Some result) ->
            exists j, length (gets new) = S j
                      /\ server (length (gets log) + j)%nat url
                         = Responds (Success result)).
Proof.
  induction k as [| k IH]; intros a log Ha.
  - exists (Py.Ok None), [], []. simpl. unfold ret. rewrite app_nil_r.
    split; [reflexivity |]. split; [lia |]. split; [reflexivity |].
    split; [apply sublist_nil_l |]. split; [constructor |].
    split; [reflexivity |]. split; [exact I | discriminate].
  - rewrite seqZ_cons by lia.
    replace (Z.pred (Z.of_nat (S k))) with (Z.of_nat k) by lia.
    assert (Hrest : forall step slept0,
               gets step = [url] ->
               sleeps step = map (fun i => inject_Z (2 ^ i)) slept0 ->
               sublist slept0 [a] ->
               Forall (fun i => i <= 33) slept0 ->
               (slept0 = [] \/ (0 < k)%nat) ->
               exists outcome new slept,
                 retry_loop server url max_retries (seqZ (Z.succ a) (Z.of_nat k))
                   (log ++ step)
                 = (outcome, log ++ new)
                 /\ (length (gets new) <= S k)%nat
                 /\ gets new = repeat url (length (gets new))
                 /\ sublist slept (seqZ a (Z.of_nat (S k) - 1))
                 /\ Forall (fun i => i <= 33) slept
                 /\ sleeps new = map (fun i => inject_Z (2 ^ i)) slept
                 /\ match outcome with
                    | Py.Ok _ => True
                    | Py.Raise e =>
                        e = Py.KeyError "result" \/ e = Py.AttributeError
                        \/ (e = Py.OverflowError /\ 34 < max_retries)
                    end
                 /\ (forall result, outcome = Py.Ok (Some result) ->
                       exists j, length (gets new) = S j
                                 /\ server (length (gets log) + j)%nat url
                                    = Responds (Success result))).
    { intros step slept0 Hstep Hslept Hsub Hsmall Hroom.
      destruct (IH (Z.succ a) (log ++ step) ltac:(lia))
        as (outcome & new & slept & -> & Hlen & Hrep & Hsl & Hall & Hsleeps
            & Hraise & Hres).
      exists outcome, (step ++ new), (slept0 ++ slept).
      rewrite <- app_assoc. split; [reflexivity |].
      rewrite gets_app, Hstep. simpl.
      split; [lia |]. split; [now f_equal |].
      split.
      { destruct k as [| k].
        - destruct Hroom as [-> | ?]; [| lia]. simpl in *. exact Hsl.
        - replace (Z.of_nat (S (S k)) - 1) with (Z.of_nat (S k)) by lia.
          rewrite seqZ_cons by lia.
          replace (Z.pred (Z.of_nat (S k))) with (Z.of_nat (S k) - 1) by lia.
          change (a :: seqZ (Z.succ a) (Z.of_nat (S k) - 1))
            with ([a] ++ seqZ (Z.succ a) (Z.of_nat (S k) - 1)).
          now apply sublist_app. }
      split; [now apply Forall_app |].
      split.
      { unfold sleeps in *. rewrite omap_app, Hslept, Hsleeps.
        now rewrite map_app. }
      split; [exact Hraise |].
      intros result Hv. destruct (Hres result Hv) as (j & Hj & Hserved).
      exists (S j). split; [now rewrite Hj |].
      rewrite gets_app, Hstep, length_app in Hserved. simpl in Hserved.
      now replace (length (gets log) + S j)%nat
        with (length (gets log) + 1 + j)%nat by lia. }
    assert (Hstop : forall outcome step,
               gets step = [url] ->
               sleeps step = [] ->
               match outcome with
               | Py.Ok (Some result) =>
                   server (length (gets log)) url = Responds (Success result)
               | Py.Ok None => True
               | Py.Raise e =>
                   e = Py.KeyError "result" \/ e = Py.AttributeError
                   \/ (e = Py.OverflowError /\ 34 < max_retries)
               end ->
               exists outcome' new slept,
                 (outcome, log ++ step) = (outcome', log ++ new)
                 /\ (length (gets new) <= S k)%nat
                 /\ gets new = repeat url (length (gets new))
                 /\ sublist slept (seqZ a (Z.of_nat (S k) - 1))
                 /\ Forall (fun i => i <= 33) slept
                 /\ sleeps new = map (fun i => inject_Z (2 ^ i)) slept
                 /\ match outcome' with
                    | Py.Ok _ => True
                    | Py.Raise e =>
                        e = Py.KeyError "result" \/ e = Py.AttributeError
                        \/ (e = Py.OverflowError /\ 34 < max_retries)
                    end
                 /\ (forall result, outcome' = Py.Ok (Some result) ->
                       exists j, length (gets new) = S j
                                 /\ server (length (gets log) + j)%nat url
                                    = Responds (Success result))).
    { intros outcome step Hstep Hslept Hout.
      exists outcome, step, []. split; [reflexivity |].
      rewrite Hstep, Hslept. simpl.
      split; [lia |]. split; [reflexivity |].
      split; [apply sublist_nil_l |]. split; [constructor |].
      split; [reflexivity |].
      split; [destruct outcome as [[r |] | e]; auto |].
      intros result ->. exists 0%nat. split; [reflexivity |].
      now rewrite Nat.add_0_r. }
    destruct (server (length (gets log)) url)
      as [kind message | [result | error | |]] eqn:E.
    + destruct (Z.lt_ge_cases a max_retries) as [Hlt | Hge].
      * destruct (Z.le_gt_cases a 33) as [Hsmall | Hbig].
        -- rewrite (retry_pass_raise_again _ _ _ _ _ _ _ _ E Hlt Hsmall).
           apply (Hrest _ [a]);
             [reflexivity | reflexivity | reflexivity
              | now repeat constructor | right; lia].
        -- rewrite (retry_pass_raise_overflow _ _ _ _ _ _ _ _ E Hlt) by lia.
           apply Hstop; [reflexivity | reflexivity |].
           right. right. split; [reflexivity | lia].
      * rewrite (retry_pass_raise_last _ _ _ _ _ _ _ _ E Hge).
        now apply Hstop.
    + rewrite (retry_pass_success _ _ _ _ _ _ _ E). now apply Hstop.
    + rewrite (retry_pass_api_failure _ _ _ _ _ _ _ E).
      apply (Hrest _ []);
        [reflexivity | reflexivity | apply sublist_nil_l | constructor | now left].
    + rewrite (retry_pass_no_result _ _ _ _ _ _ E).
      apply Hstop; [reflexivity | reflexivity | now left].
    + rewrite (retry_pass_not_object _ _ _ _ _ _ E).
      apply Hstop; [reflexivity | reflexivity | right; now left].
Qed.


End RetryBudget.


(** X2. A result returned by [convert_with_retry] is the one the service
    sent in reply to the last GET of the call. *)
Theorem convert_with_retry_result_is_served
    (server : service) (year month day : Z) (conversion_type : string)
    (max_retries : Z) (log : list event)
    (result : date_dict) (final : list event) :
  convert_with_retry server year month day conversion_type max_retries log
  = (Py.Ok (Some result), final) ->
  exists new j,
    final = log ++ new
    /\ length (gets new) = S j
    /\ server (length (gets log) + j)%nat (api_url conversion_type year month day)
       = Responds (Success result).
Proof.
  unfold convert_with_retry, range. intros Hrun.
  destruct (Z.le_gt_cases max_retries 0) as [Hle | Hgt].
  - rewrite seqZ_nil in Hrun by lia. discriminate.
  - destruct (retry_loop_budget server (api_url conversion_type year month day)
                max_retries (Z.to_nat max_retries) 1 log ltac:(lia))
      as (outcome & new & slept & Hrun' & _ & _ & _ & _ & _ & _ & Hres).
    replace (Z.of_nat (Z.to_nat max_retries)) with (max_retries + 1 - 1)
      in Hrun' by lia.
    rewrite Hrun in Hrun'. injection Hrun' as <- ->.
    destruct (Hres result eq_refl) as (j & Hj & Hserved).
    exists new, j. repeat split; assumption.
Qed.

(** The retrying service of the witness below: two failures, then a reply. *)
Lemma convert_with_retry_result_is_served_witness :
  let third_time : service :=
    fun n _ =>
      match n with
      | 0%nat => Fails Py.Timeout "Read timed out"
      | 1%nat => Responds (Failure None)
      | _ => Responds (Success (make_date 2081 6 29))
      end in
  exists new j,
    [Get (api_url "ad-to-bs" 2024 10 15);
     Print "Attempt 1 failed: Read timed out";
     Print "Retrying in 2 seconds...";
     Sleep (inject_Z 2);
     Get (api_url "ad-to-bs" 2024 10 15);
     Print "Attempt 2: None";
     Get (api_url "ad-to-bs" 2024 10 15)]
    = [] ++ new
    /\ length (gets new) = S j
    /\ third_time (length (gets []) + j)%nat (api_url "ad-to-bs" 2024 10 15)
       = Responds (Success (make_date 2081 6 29)).
Proof.
  intros third_time.
  apply (convert_with_retry_result_is_served third_time 2024 10 15 "ad-to-bs" 3 []).
  vm_compute. reflexivity.
Defined.

(** A body without its result, at the second attempt: [KeyError], which
    the loop does not catch. *)
Example retry_meets_malformed_reply :
  convert_with_retry second_malformed 2024 10 15 "ad-to-bs" 3
    [Get (api_url "ad-to-bs" 2024 10 14)]
  = (Py.Raise (Py.KeyError "result"),
     [Get (api_url "ad-to-bs" 2024 10 14); Get (api_url "ad-to-bs" 2024 10 15)]).
Proof. vm_compute. reflexivity. Qed.

Section RetrySuccess.
Variable server : service.
Variables (url : string) (max_retries : Z).

(** The loop stops at the first attempt that is answered with a result. *)
Lemma retry_loop_first_success (j : nat) :
  forall (k : nat) a log result,
    (j < k)%nat ->
    a + Z.of_nat k = max_retries + 1 ->
    a + Z.of_nat j <= 34 ->
    (forall i, (i < j)%nat -> failed (server (length (gets log) + i)%nat url)) ->
    server (length (gets log) + j)%nat url = Responds (Success result) ->
    exists new,
      retry_loop server url max_retries (seqZ a (Z.of_nat k)) log
      = (Py.Ok (Some result), log ++ new)
      /\ gets new = repeat url (S j).
Proof.
  induction j as [| j IH]; intros k a log result Hjk Ha Hsmall Hfail Hok.
  - rewrite seqZ_cons by lia. rewrite Nat.add_0_r in Hok.
    rewrite (retry_pass_success _ _ _ _ _ _ _ Hok).
    now exists [Get url].
  - rewrite seqZ_cons by lia.
    assert (Hnext : forall step,
               gets step = [url] ->
               exists new,
                 retry_loop server url max_retries
                   (seqZ (Z.succ a) (Z.pred (Z.of_nat k))) (log ++ step)
                 = (Py.Ok (Some result), log ++ new)
                 /\ gets new = repeat url (S (S j))).
    { intros step Hstep.
      replace (Z.pred (Z.of_nat k)) with (Z.of_nat (Nat.pred k)) by lia.
      destruct (IH (Nat.pred k) (Z.succ a) (log ++ step) result)
        as (new & -> & Hnew); [lia | lia | lia | | |].
      - intros i Hi. rewrite gets_app, Hstep, length_app. simpl.
        replace (length (gets log) + 1 + i)%nat
          with (length (gets log) + S i)%nat by lia.
        apply Hfail. lia.
      - rewrite gets_app, Hstep, length_app. simpl.
        now replace (length (gets log) + 1 + j)%nat
          with (length (gets log) + S j)%nat by lia.
      - exists (step ++ new). rewrite <- app_assoc. split; [reflexivity |].
        now rewrite gets_app, Hstep, Hnew. }
    pose proof (Hfail 0%nat ltac:(lia)) as Hfirst. rewrite Nat.add_0_r in Hfirst.
    destruct (server (length (gets log)) url)
      as [kind message | [r | error | |]] eqn:E; simpl in Hfirst;
      try contradiction.
    + rewrite (retry_pass_raise_again _ _ _ _ _ _ _ _ E) by lia. now apply Hnext.
    + rewrite (retry_pass_api_failure _ _ _ _ _ _ _ E). now apply Hnext.
Qed.

End RetrySuccess.

(** X3. When attempt [j + 1] is the first one answered with a result, the
    attempts before it failing (the request raised, or the reply said
    success: false), and the budget reaches it ([j < max_retries], and
    [j <= 33], so that every sleep on the way is one the clock accepts),
    [convert_with_retry] returns that result after exactly [j + 1] GETs: it
    stops at the first success. *)
Theorem convert_with_retry_stops_at_first_success
    (server : service) (year month day : Z) (conversion_type : string)
    (max_retries : Z) (log : list event) (j : nat) (result : date_dict) :
  Z.of_nat j < max_retries ->
  (j <= 33)%nat ->
  (forall i, (i < j)%nat ->
     failed (server (length (gets log) + i)%nat
               (api_url conversion_type year month day))) ->
  server (length (gets log) + j)%nat (api_url conversion_type year month day)
  = Responds (Success result) ->
  exists new,
    convert_with_retry server year month day conversion_type max_retries log
    = (Py.Ok (Some result), log ++ new)
    /\ gets new = repeat (api_url conversion_type year month day) (S j).
Proof.
  intros Hj Hsmall Hfail Hok. unfold convert_with_retry, range.
  replace (max_retries + 1 - 1) with (Z.of_nat (Z.to_nat max_retries)) by lia.
  apply (retry_loop_first_success server _ max_retries j (Z.to_nat max_retries) 1);
    [lia | lia | lia | exact Hfail | exact Hok].
Qed.

(** A service that rejects the first GET and converts from the second on. *)
Lemma convert_with_retry_stops_at_first_success_witness :
  let second_time : service :=
    fun n _ =>
      match n with
      | 0%nat => Responds (Failure (Some "Busy"))
      | _ => Responds (Success (make_date 2081 6 29))
      end in
  exists new,
    convert_with_retry second_time 2024 10 15 "ad-to-bs" 3 []
    = (Py.Ok (Some (make_date 2081 6 29)), [] ++ new)
    /\ gets new = repeat (api_url "ad-to-bs" 2024 10 15) 2.
Proof.
  intros second_time.
  apply (convert_with_retry_stops_at_first_success
           second_time 2024 10 15 "ad-to-bs" 3 [] 1%nat).
  - lia.
  - lia.
  - intros [| i] Hi; [exact I | lia].
  - reflexivity.
Defined.

(** ** Basic conversions *)

Lemma dashed_fields_ok date :
  has_date_fields date -> exists text, dashed_fields date = Py.Ok text.
Proof.
  intros ([y Hy] & [m Hm] & [d Hd]). unfold dashed_fields, Py.getitem.
  rewrite Hy, Hm, Hd. simpl. eauto.
Qed.

Lemma dashed_fields_raise date :
  ~ has_date_fields date ->
  exists key, dashed_fields date = Py.Raise (Py.KeyError key)
              /\ date !! key = None
              /\ (key = "year" \/ key = "month" \/ key = "day").
Proof.
  intros Hmissing. unfold dashed_fields, Py.getitem.
  destruct (date !! "year") as [y |] eqn:Hy; [| exists "year"; auto].
  destruct (date !! "month") as [m |] eqn:Hm; [| exists "month"; auto].
  destruct (date !! "day") as [d |] eqn:Hd; [| exists "day"; auto].
  exfalso. apply Hmissing. unfold has_date_fields. rewrite Hy, Hm, Hd. eauto.
Qed.

Lemma has_date_fields_dec date : has_date_fields date \/ ~ has_date_fields date.
Proof.
  unfold has_date_fields.
  destruct (date !! "year"), (date !! "month"), (date !! "day");
    try (left; eauto; fail); right; intros (H1 & H2 & H3);
    (now destruct H1) || (now destruct H2) || (now destruct H3).
Qed.

Lemma convert_ad_to_bs_run
    (server : service) (year month day : Z) (log : list event) :
  exists new,
    snd (convert_ad_to_bs server year month day log) = log ++ new
    /\ gets new = [api_url "ad-to-bs" year month day]
    /\ sleeps new = []
    /\ match server (length (gets log)) (api_url "ad-to-bs" year month day) with
       | Responds (Success result) =>
           (has_date_fields result ->
            fst (convert_ad_to_bs server year month day log) = Py.Ok (Some result))
           /\ (~ has_date_fields result ->
               exists key,
                 fst (convert_ad_to_bs server year month day log)
                 = Py.Raise (Py.KeyError key)
                 /\ result !! key = None)
       | Responds SuccessNoResult =>
           fst (convert_ad_to_bs server year month day log)
           = Py.Raise (Py.KeyError "result")
       | Responds NotAnObject =>
           fst (convert_ad_to_bs server year month day log) = Py.Raise Py.AttributeError
       | _ => fst (convert_ad_to_bs server year month day log) = Py.Ok None
       end.
Proof.
  unfold convert_ad_to_bs, try_except_by_class, bind, fetch, lift, print, ret.
  change ("https://sudhanparajuli.com.np/api/ad-to-bs/" +:+ Py.str_of_int year
            +:+ "/" +:+ Py.str_of_int month +:+ "/" +:+ Py.str_of_int day)
    with (api_url "ad-to-bs" year month day).
  destruct (server (length (gets log)) (api_url "ad-to-bs" year month day))
    as [kind message | [result | error | |]].
  - destruct kind; eexists; (split; [rewrite <- app_assoc; reflexivity |]);
      repeat split; reflexivity.
  - destruct (has_date_fields_dec result) as [Hall | Hmissing].
    + destruct (dashed_fields_ok result Hall) as (text & ->).
      eexists. split; [simpl; rewrite <- app_assoc; reflexivity |].
      repeat split; try reflexivity. intros Hno. contradiction.
    + destruct (dashed_fields_raise result Hmissing) as (key & -> & Hkey & _).
      eexists. split; [simpl; reflexivity |].
      repeat split; try reflexivity; [contradiction |].
      intros _. now exists key.
  - eexists. split; [rewrite <- app_assoc; reflexivity |].
    repeat split; reflexivity.
  - eexists. split; [reflexivity |]. repeat split; reflexivity.
  - eexists. split; [reflexivity |]. repeat split; reflexivity.
Qed.




(** ** Conversion with validation *)

Section Validation.
Variable server : service.
Variables (year month day : Z) (conversion_type : string).


Lemma convert_with_validation_valid log :
  validator conversion_type year month day = true ->
  convert_with_validation server year month day conversion_type log
  = match server (length (gets log)) (api_url conversion_type year month day) with
    | Fails _ message =>
        (Py.Ok None,
         log ++ [Get (api_url conversion_type year month day);
                 Print ("Request failed: " +:+ message)])
    | Responds (Success result) =>
        (Py.Ok (Some result), log ++ [Get (api_url conversion_type year month day)])
    | Responds (Failure _) =>
        (Py.Ok None, log ++ [Get (api_url conversion_type year month day)])
    | Responds SuccessNoResult =>
        (Py.Raise (Py.KeyError "result"),
         log ++ [Get (api_url conversion_type year month day)])
    | Responds NotAnObject =>
        (Py.Raise Py.AttributeError,
         log ++ [Get (api_url conversion_type year month day)])
    end.
Proof.
  unfold validator, convert_with_validation. intros H.
  assert (Hgo : negb (if String.eqb conversion_type "ad-to-bs"
                      then is_valid_ad_date year month day
                      else is_valid_bs_date year month day) = false).
  { destruct (String.eqb conversion_type "ad-to-bs"); now rewrite H. }
  rewrite Hgo. unfold try_except, bind, fetch, print, ret, raise.
  destruct (server (length (gets log)) (api_url conversion_type year month day))
    as [kind message | [result | error | |]]; try reflexivity.
  now rewrite <- app_assoc.
Qed.

End Validation.

(** ** The entry points compared *)

(** X5. On one and the same reply of the service (whose result, if any,
    carries the three date fields), [convert_ad_to_bs],
    [convert_with_retry] with [max_retries = 1], a fresh
    [DateConverterCache] and, for a date its validator accepts,
    [convert_with_validation] end in the same way, each after the same
    single GET: they return the same value, which they do whenever the body
    is a documented one, or they raise the same exception. *)
Theorem entry_points_agree
    (server : service) (year month day : Z) (log : list event) :
  (forall result,
      server (length (gets log)) (api_url "ad-to-bs" year month day)
      = Responds (Success result) ->
      has_date_fields result) ->
  exists outcome,
    fst (convert_ad_to_bs server year month day log) = outcome
    /\ gets (snd (convert_ad_to_bs server year month day log))
       = gets log ++ [api_url "ad-to-bs" year month day]
    /\ fst (convert_with_retry server year month day "ad-to-bs" 1 log) = outcome
    /\ gets (snd (convert_with_retry server year month day "ad-to-bs" 1 log))
       = gets log ++ [api_url "ad-to-bs" year month day]
    /\ match outcome with
       | Py.Ok value =>
           exists self1,
             fst (DateConverterCache.convert server DateConverterCache.__init__
                    year month day "ad-to-bs" log)
             = Py.Ok (value, self1)
       | Py.Raise e =>
           fst (DateConverterCache.convert server DateConverterCache.__init__
                  year month day "ad-to-bs" log)
           = Py.Raise e
       end
    /\ gets (snd (DateConverterCache.convert server DateConverterCache.__init__
                    year month day "ad-to-bs" log))
       = gets log ++ [api_url "ad-to-bs" year month day]
    /\ (is_valid_ad_date year month day = true ->
        fst (convert_with_validation server year month day "ad-to-bs" log)
        = outcome
        /\ gets (snd (convert_with_validation server year month day "ad-to-bs" log))
           = gets log ++ [api_url "ad-to-bs" year month day])
    /\ ((forall data,
           server (length (gets log)) (api_url "ad-to-bs" year month day)
           = Responds data ->
           documented data) ->
        exists value, outcome = Py.Ok value).
Proof.
  intros Hfields.
  destruct (convert_ad_to_bs_run server year month day log)
    as (new & Hlog & Hgets & _ & Hdirect).
  assert (Hlookup : DateConverterCache.cache DateConverterCache.__init__
                      !! DateConverterCache._generate_key year month day "ad-to-bs"
                    = None) by apply lookup_empty.
  pose proof (convert_with_validation_valid server year month day "ad-to-bs" log)
    as Hvalid.
  change (validator "ad-to-bs" year month day)
    with (is_valid_ad_date year month day) in Hvalid.
  unfold convert_with_retry, range. change (seqZ 1 (1 + 1 - 1)) with [1].
  rewrite Hlog, gets_app, Hgets.
  destruct (server (length (gets log)) (api_url "ad-to-bs" year month day))
    as [kind message | [result | error | |]] eqn:E.
  - exists (Py.Ok None). rewrite Hdirect.
    rewrite (retry_pass_raise_last _ _ _ _ _ _ _ _ E) by lia.
    rewrite (convert_miss_raise _ _ _ _ _ _ _ _ _ Hlookup E).
    simpl. rewrite !gets_app. simpl.
    do 4 (split; [reflexivity |]). split; [eexists; reflexivity |].
    split; [reflexivity |].
    split; [| eauto].
    intros Hv. rewrite (Hvalid Hv). simpl. rewrite gets_app. now split.
  - exists (Py.Ok (Some result)).
    destruct Hdirect as [Hdirect _]. rewrite (Hdirect (Hfields result eq_refl)).
    rewrite (retry_pass_success _ _ _ _ _ _ _ E).
    rewrite (convert_miss_success _ _ _ _ _ _ _ _ Hlookup E).
    simpl. rewrite !gets_app. simpl.
    do 4 (split; [reflexivity |]). split; [eexists; reflexivity |].
    split; [reflexivity |].
    split; [| eauto].
    intros Hv. rewrite (Hvalid Hv). simpl. rewrite gets_app. now split.
  - exists (Py.Ok None). rewrite Hdirect.
    rewrite (retry_pass_api_failure _ _ _ _ _ _ _ E).
    rewrite (convert_miss_api_failure _ _ _ _ _ _ _ _ Hlookup E).
    simpl. unfold ret. simpl. rewrite !gets_app. simpl.
    do 4 (split; [reflexivity |]). split; [eexists; reflexivity |].
    split; [reflexivity |].
    split; [| eauto].
    intros Hv. rewrite (Hvalid Hv). simpl. rewrite gets_app. now split.
  - exists (Py.Raise (Py.KeyError "result")). rewrite Hdirect.
    rewrite (retry_pass_no_result _ _ _ _ _ _ E).
    rewrite (convert_miss_no_result _ _ _ _ _ _ _ Hlookup E).
    simpl. rewrite !gets_app. simpl.
    do 6 (split; [reflexivity |]).
    split.
    + intros Hv. rewrite (Hvalid Hv). simpl. rewrite gets_app. now split.
    + intros Hdoc. now destruct (Hdoc _ eq_refl).
  - exists (Py.Raise Py.AttributeError). rewrite Hdirect.
    rewrite (retry_pass_not_object _ _ _ _ _ _ E).
    rewrite (convert_miss_not_object _ _ _ _ _ _ _ Hlookup E).
    simpl. rewrite !gets_app. simpl.
    do 6 (split; [reflexivity |]).
    split.
    + intros Hv. rewrite (Hvalid Hv). simpl. rewrite gets_app. now split.
    + intros Hdoc. now destruct (Hdoc _ eq_refl).
Qed.

(** The same date asked of a service that converts it. *)
Lemma entry_points_agree_witness :
  exists value,
    fst (convert_ad_to_bs answering 2024 10 15 []) = Py.Ok value
    /\ gets (snd (convert_ad_to_bs answering 2024 10 15 []))
       = gets [] ++ [api_url "ad-to-bs" 2024 10 15]
    /\ fst (convert_with_retry answering 2024 10 15 "ad-to-bs" 1 []) = Py.Ok value
    /\ gets (snd (convert_with_retry answering 2024 10 15 "ad-to-bs" 1 []))
       = gets [] ++ [api_url "ad-to-bs" 2024 10 15]
    /\ (exists self1,
          fst (DateConverterCache.convert answering DateConverterCache.__init__
                 2024 10 15 "ad-to-bs" [])
          = Py.Ok (value, self1))
    /\ gets (snd (DateConverterCache.convert answering DateConverterCache.__init__
                    2024 10 15 "ad-to-bs" []))
       = gets [] ++ [api_url "ad-to-bs" 2024 10 15]
    /\ (is_valid_ad_date 2024 10 15 = true ->
        fst (convert_with_validation answering 2024 10 15 "ad-to-bs" [])
        = Py.Ok value
        /\ gets (snd (convert_with_validation answering 2024 10 15 "ad-to-bs" []))
           = gets [] ++ [api_url "ad-to-bs" 2024 10 15]).
Proof.
  destruct (entry_points_agree answering 2024 10 15 [])
    as (outcome & Hdirect & Hgets & Hretry & Hgets' & Hcache & Hgets''
        & Hvalid & Hreturns).
  - intros result [= <-]. unfold has_date_fields.
    repeat split; vm_compute; eauto.
  - destruct Hreturns as (value & ->).
    + intros data [= <-]. exact I.
    + exists value. repeat split; try assumption; now apply Hvalid.
Defined.


Lemma is_valid_bs_date_sound year month day :
  is_valid_bs_date year month day = true ->
  2000 <= year <= 2099 /\ 1 <= month <= 12 /\ 1 <= day <= 32.
Proof.
  unfold is_valid_bs_date.
  destruct (Z.leb_spec 2000 year), (Z.leb_spec year 2099); simpl; try discriminate.
  destruct (Z.leb_spec 1 month), (Z.leb_spec month 12); simpl; try discriminate.
  destruct (Z.leb_spec 1 day), (Z.leb_spec day 32); simpl; try discriminate.
  lia.
Qed.


(** A valid date answered by a body without its result: the [KeyError] of
    the subscript leaves [convert_with_validation]. *)
Example convert_with_validation_raises :
  convert_with_validation second_malformed 2024 10 15 "ad-to-bs"
    [Get (api_url "ad-to-bs" 2024 10 14)]
  = (Py.Raise (Py.KeyError "result"),
     [Get (api_url "ad-to-bs" 2024 10 14); Get (api_url "ad-to-bs" 2024 10 15)]).
Proof. vm_compute. reflexivity. Qed.

(** ** The error handling wrapper *)

Lemma raise_for_status_none response :
  Requests.raise_for_status response = None <->
  Requests.status_code response < 400 \/ 600 <= Requests.status_code response.
Proof.
  unfold Requests.raise_for_status.
  destruct (Z.leb_spec 400 (Requests.status_code response)),
    (Z.ltb_spec (Requests.status_code response) 500),
    (Z.leb_spec 500 (Requests.status_code response)),
    (Z.ltb_spec (Requests.status_code response) 600); simpl;
    split; intros Hcase; try discriminate; try reflexivity; lia.
Qed.


(** A response 200 whose body says success: true and carries no result:
    [safe_convert] lets the [KeyError] through. *)
Example safe_convert_uncaught :
  let w : web :=
    fun _ url =>
      Requests.Returns {| Requests.status_code := 200;
                          Requests.reason := "OK";
                          Requests.url := url;
                          Requests.data := SuccessNoResult |} in
  fst (safe_convert w 2024 10 15 "ad-to-bs" []) = Uncaught (Py.KeyError "result").
Proof. reflexivity. Qed.



(** X9. A response with a status of 500 or more makes [safe_convert] raise
    the server error whatever its body says.  From 600 on this is where it
    parts from the other entry points: [raise_for_status] lets such a
    response through, so that [convert_with_retry] returns the result the
    body carries. *)
Theorem safe_convert_server_error
    (w : web) (year month day : Z) (conversion_type : string)
    (log : list event) (response : Requests.Response) :
  w (length (gets log)) (api_url conversion_type year month day)
  = Requests.Returns response ->
  500 <= Requests.status_code response ->
  fst (safe_convert w year month day conversion_type log)
  = ConversionError "Server error occurred"
  /\ (forall result,
         600 <= Requests.status_code response ->
         Requests.data response = Success result ->
         fst (convert_with_retry (served w) year month day conversion_type 1 log)
         = Py.Ok (Some result)).
Proof.
  intros Hw Hstatus. split.
  - unfold safe_convert. simpl. rewrite Hw.
    destruct (Z.eqb_spec (Requests.status_code response) 400); [lia |].
    destruct (Z.eqb_spec (Requests.status_code response) 404); [lia |].
    destruct (Z.leb_spec 500 (Requests.status_code response)); [reflexivity | lia].
  - intros result H600 Hdata.
    assert (Hserved : served w (length (gets log))
                        (api_url conversion_type year month day)
                      = Responds (Success result)).
    { unfold served, Requests.settle. rewrite Hw.
      replace (Requests.raise_for_status response) with (@None string).
      - now rewrite Hdata.
      - symmetry. apply raise_for_status_none. lia. }
    unfold convert_with_retry, range. change (seqZ 1 (1 + 1 - 1)) with [1].
    now rewrite (retry_pass_success _ _ _ _ _ _ _ Hserved).
Qed.

(** A status of 600 on a body that says success. *)
Lemma safe_convert_server_error_witness :
  let odd : web :=
    fun _ url =>
      Requests.Returns {| Requests.status_code := 600;
                          Requests.reason := "Unknown";
                          Requests.url := url;
                          Requests.data := Success (make_date 2081 6 29) |} in
  fst (safe_convert odd 2024 10 15 "ad-to-bs" [])
  = ConversionError "Server error occurred"
  /\ fst (convert_with_retry (served odd) 2024 10 15 "ad-to-bs" 1 [])
     = Py.Ok (Some (make_date 2081 6 29)).
Proof.
  intros odd.
  destruct (safe_convert_server_error odd 2024 10 15 "ad-to-bs" []
              {| Requests.status_code := 600;
                 Requests.reason := "Unknown";
                 Requests.url := api_url "ad-to-bs" 2024 10 15;
                 Requests.data := Success (make_date 2081 6 29) |})
    as [Hsafe Hretry].
  - reflexivity.
  - simpl. lia.
  - split; [exact Hsafe |]. apply Hretry; [simpl; lia | reflexivity].
Defined.

(** ** More on the cache *)


(** X11. [clear_cache] empties the mapping without any GET: the size is 0
    afterwards, and the next [convert], for whatever arguments, goes to the
    network even if its result had been stored before. *)
Theorem clear_cache_forgets
    (self : DateConverterCache.t) (log : list event) :
  exists emptied,
    DateConverterCache.clear_cache self log
    = (Py.Ok (tt, emptied), log ++ [Print "Cache cleared"])
    /\ DateConverterCache.get_cache_size emptied = 0
    /\ forall (server : service) (year month day : Z) (conversion_type : string)
              (later : list event),
         exists outcome new,
           DateConverterCache.convert server emptied year month day
             conversion_type later
           = (outcome, later ++ Get (api_url conversion_type year month day) :: new).
Proof.
  exists {| DateConverterCache.cache := ∅ |}. split; [reflexivity |].
  split; [reflexivity |].
  intros server year month day conversion_type later.
  apply convert_miss_gets. apply lookup_empty.
Qed.

(** ** Printed integers, keys and URLs *)

Lemma uint_digits d : string_forall is_digit (NilEmpty.string_of_uint d) = true.
Proof. induction d; simpl; auto. Qed.

Lemma uint_nonempty d : d <> Decimal.Nil -> NilEmpty.string_of_uint d <> EmptyString.
Proof. destruct d; simpl; congruence. Qed.

Lemma nilzero_uint d :
  d <> Decimal.Nil -> NilZero.string_of_uint d = NilEmpty.string_of_uint d.
Proof. destruct d; simpl; congruence. Qed.

(** [str(n)] is a non-empty run of digits, after a minus sign when [n] is
    negative. *)
Lemma str_of_int_shape n :
  exists ds,
    ds <> EmptyString
    /\ string_forall is_digit ds = true
    /\ Py.str_of_int n = if n <? 0 then String "-" ds else ds.
Proof.
  unfold Py.str_of_int. destruct n as [| p | p]; simpl.
  - exists "0". repeat split; congruence.
  - exists (NilEmpty.string_of_uint (Pos.to_uint p)).
    pose proof (DecimalPos.Unsigned.to_uint_nonnil p) as Hp.
    split; [now apply uint_nonempty |]. split; [apply uint_digits |].
    now apply nilzero_uint.
  - exists (NilEmpty.string_of_uint (Pos.to_uint p)).
    pose proof (DecimalPos.Unsigned.to_uint_nonnil p) as Hp.
    split; [now apply uint_nonempty |]. split; [apply uint_digits |].
    f_equal. now apply nilzero_uint.
Qed.

Lemma string_forall_impl (p q : ascii -> bool) s :
  (forall c, p c = true -> q c = true) ->
  string_forall p s = true -> string_forall q s = true.
Proof.
  intros Hpq. induction s as [| c s IH]; simpl; [reflexivity |].
  rewrite !andb_true_iff. intros [Hc Hs]. auto.
Qed.

Lemma string_forall_app p s1 s2 :
  string_forall p (s1 +:+ s2) = string_forall p s1 && string_forall p s2.
Proof.
  induction s1 as [| c s1 IH]; simpl; [reflexivity |].
  now rewrite IH, andb_assoc.
Qed.

Lemma str_of_int_chars n : string_forall is_int_char (Py.str_of_int n) = true.
Proof.
  destruct (str_of_int_shape n) as (ds & _ & Hds & ->).
  assert (Hall : string_forall is_int_char ds = true).
  { apply (string_forall_impl is_digit); [| exact Hds].
    intros c Hc. unfold is_int_char. now rewrite Hc. }
  destruct (n <? 0); simpl; [| exact Hall]. exact Hall.
Qed.

Lemma str_of_int_inj n n' : Py.str_of_int n = Py.str_of_int n' -> n = n'.
Proof.
  unfold Py.str_of_int. intros H.
  apply DecimalZ.to_int_inj.
  assert (Hnorm : forall z, Z.to_int z <> Decimal.Pos Decimal.Nil
                            /\ Z.to_int z <> Decimal.Neg Decimal.Nil).
  { intros [| p | p]; simpl; split; try discriminate;
      intros [= Hp]; now apply (DecimalPos.Unsigned.to_uint_nonnil p). }
  destruct (Hnorm n) as [Hp Hn], (Hnorm n') as [Hp' Hn'].
  pose proof (NilZero.isi _ Hp Hn) as E.
  pose proof (NilZero.isi _ Hp' Hn') as E'.
  rewrite H in E. congruence.
Qed.

Lemma append_inj_l prefix a b : prefix +:+ a = prefix +:+ b -> a = b.
Proof.
  induction prefix as [| c prefix IH]; simpl; [auto |].
  intros [= H]. auto.
Qed.

(** Two texts that agree, each a run of allowed characters followed by a
    separator that is not allowed, agree on the run and on the rest. *)
Lemma split_at_separator (p : ascii -> bool) (c : ascii) :
  p c = false ->
  forall s1 s2 r1 r2,
    string_forall p s1 = true -> string_forall p s2 = true ->
    s1 +:+ String c r1 = s2 +:+ String c r2 -> s1 = s2 /\ r1 = r2.
Proof.
  intros Hc. induction s1 as [| a s1 IH]; intros [| b s2] r1 r2; simpl.
  - intros _ _ [= ->]. auto.
  - rewrite andb_true_iff. intros _ [Hb _] [= <- _]. congruence.
  - rewrite andb_true_iff. intros [Ha _] _ [= -> _]. congruence.
  - rewrite !andb_true_iff. intros [_ H1] [_ H2] [= -> H].
    destruct (IH s2 r1 r2 H1 H2 H) as [-> ->]. auto.
Qed.

(** The same for printed integers followed by a dash, the sign apart. *)
Lemma split_printed_int n n' r r' :
  Py.str_of_int n +:+ String "-" r = Py.str_of_int n' +:+ String "-" r' ->
  n = n' /\ r = r'.
Proof.
  intros H.
  destruct (str_of_int_shape n) as (ds & Hne & Hds & E).
  destruct (str_of_int_shape n') as (ds' & Hne' & Hds' & E').
  assert (Hdash : is_digit "-" = false) by reflexivity.
  assert (Hhead : forall s rest tail,
             s <> EmptyString -> string_forall is_digit s = true ->
             s +:+ tail <> String "-" rest).
  { intros [| a s] rest tail Hs Hd; [congruence |]. simpl in *.
    apply andb_true_iff in Hd as [Ha _]. intros [= -> _]. congruence. }
  rewrite E, E' in H.
  destruct (n <? 0) eqn:Hn, (n' <? 0) eqn:Hn'; simpl in H.
  - injection H as H.
    destruct (split_at_separator is_digit "-" Hdash _ _ _ _ Hds Hds' H) as [-> ->].
    split; [| reflexivity]. apply str_of_int_inj. now rewrite E, E'.
  - exfalso. symmetry in H. now apply Hhead in H.
  - exfalso. now apply Hhead in H.
  - destruct (split_at_separator is_digit "-" Hdash _ _ _ _ Hds Hds' H) as [-> ->].
    split; [| reflexivity]. apply str_of_int_inj. now rewrite E, E'.
Qed.

Lemma generate_key_same_type
    (conv_type : string) (year month day year' month' day' : Z) :
  DateConverterCache._generate_key year month day conv_type
  = DateConverterCache._generate_key year' month' day' conv_type ->
  year = year' /\ month = month' /\ day = day'.
Proof.
  unfold DateConverterCache._generate_key. intros H.
  apply append_inj_l in H. simpl in H. injection H as H.
  apply split_printed_int in H as [-> H].
  apply split_printed_int in H as [-> H].
  apply str_of_int_inj in H. auto.
Qed.

(** X12. Under one conversion type, [_generate_key] gives different dates
    different keys; and no key of the type ad-to-bs is a key of the type
    bs-to-ad. *)
Theorem generate_key_injective :
  (forall (conv_type : string) (year month day year' month' day' : Z),
      DateConverterCache._generate_key year month day conv_type
      = DateConverterCache._generate_key year' month' day' conv_type ->
      year = year' /\ month = month' /\ day = day')
  /\ (forall (year month day year' month' day' : Z),
        DateConverterCache._generate_key year month day "ad-to-bs"
        <> DateConverterCache._generate_key year' month' day' "bs-to-ad").
Proof.
  split; [exact generate_key_same_type |].
  intros year month day year' month' day'.
  unfold DateConverterCache._generate_key. simpl. discriminate.
Qed.

(** With a conversion type that ends in a dash, the key of one date is the
    key of another date under a different type. *)
Example generate_key_collision :
  DateConverterCache._generate_key (-1) 2 3 "a"
  = DateConverterCache._generate_key 1 2 3 "a-".
Proof. reflexivity. Qed.

(** X13. Under one conversion type, [api_url] gives different dates
    different URLs. *)
Theorem api_url_injective
    (conversion_type : string) (year month day year' month' day' : Z) :
  api_url conversion_type year month day
  = api_url conversion_type year' month' day' ->
  year = year' /\ month = month' /\ day = day'.
Proof.
  unfold api_url. intros H.
  apply append_inj_l in H. apply append_inj_l in H.
  simpl in H. injection H as H.
  assert (Hslash : is_int_char "/" = false) by reflexivity.
  apply (split_at_separator is_int_char "/" Hslash) in H as [Hy H];
    try apply str_of_int_chars.
  apply (split_at_separator is_int_char "/" Hslash) in H as [Hm H];
    try apply str_of_int_chars.
  apply str_of_int_inj in Hy, Hm, H. auto.
Qed.

(** X14. A call for one date leaves the other dates of the same conversion
    type out of the mapping: if the key of another date was not stored
    before the call, a [convert] for that other date afterwards goes to the
    network, whatever the first call stored. *)
Theorem cache_miss_for_other_date
    (server : service) (self : DateConverterCache.t)
    (year month day year' month' day' : Z) (conversion_type : string)
    (log : list event) (value : option date_dict)
    (self1 : DateConverterCache.t) (log1 : list event) :
  (year, month, day) <> (year', month', day') ->
  DateConverterCache.cache self
    !! DateConverterCache._generate_key year' month' day' conversion_type = None ->
  DateConverterCache.convert server self year month day conversion_type log
  = (Py.Ok (value, self1), log1) ->
  DateConverterCache.cache self1
    !! DateConverterCache._generate_key year' month' day' conversion_type = None
  /\ forall later, exists outcome new,
       DateConverterCache.convert server self1 year' month' day' conversion_type later
       = (outcome, later ++ Get (api_url conversion_type year' month' day') :: new).
Proof.
  intros Hother Hfree Hrun.
  assert (Hkeys : DateConverterCache._generate_key year' month' day' conversion_type
                  <> DateConverterCache._generate_key year month day conversion_type).
  { intros H. apply generate_key_same_type in H as (-> & -> & ->). now apply Hother. }
  assert (Hstill : DateConverterCache.cache self1
                     !! DateConverterCache._generate_key year' month' day' conversion_type
                   = None).
  { pose proof (convert_cases server year month day conversion_type self log) as Hc.
    rewrite Hrun in Hc.
    inversion Hc; subst; try assumption.
    simpl. now rewrite lookup_insert_ne by congruence. }
  split; [exact Hstill |].
  intros later. now apply convert_miss_gets.
Qed.

(** A fresh instance asked for two different days. *)
Lemma cache_miss_for_other_date_witness :
  let key := DateConverterCache._generate_key 2024 10 16 "ad-to-bs" in
  let first := DateConverterCache._generate_key 2024 10 15 "ad-to-bs" in
  let self1 :=
    {| DateConverterCache.cache := <[first := make_date 2081 6 29]> ∅ |} in
  DateConverterCache.cache self1 !! key = None
  /\ forall later, exists outcome new,
       DateConverterCache.convert answering self1 2024 10 16 "ad-to-bs" later
       = (outcome, later ++ Get (api_url "ad-to-bs" 2024 10 16) :: new).
Proof.
  apply (cache_miss_for_other_date answering DateConverterCache.__init__
           2024 10 15 2024 10 16 "ad-to-bs" [] (Some (make_date 2081 6 29))
           _ [Get (api_url "ad-to-bs" 2024 10 15)]).
  - discriminate.
  - vm_compute. reflexivity.
  - vm_compute. reflexivity.
Defined.

(** ** More on formatting *)

(** X15. For a dictionary that is not empty, [format_nepali_date] reads
    year, month and day in this order: it returns a text when the three are
    there, whatever the format, and raises [KeyError] for the first one that
    is missing. *)
Theorem format_missing_key (date : date_dict) (format_str : string) :
  date <> ∅ ->
  (has_date_fields date ->
   exists text, format_nepali_date (Some date) format_str = Py.Ok text)
  /\ (date !! "year" = None ->
      format_nepali_date (Some date) format_str = Py.Raise (Py.KeyError "year"))
  /\ (is_Some (date !! "year") -> date !! "month" = None ->
      format_nepali_date (Some date) format_str = Py.Raise (Py.KeyError "month"))
  /\ (is_Some (date !! "year") -> is_Some (date !! "month") ->
      date !! "day" = None ->
      format_nepali_date (Some date) format_str = Py.Raise (Py.KeyError "day")).
Proof.
  intros Hne. unfold format_nepali_date.
  assert (Htruthy : Py.truthy (Some date) = true).
  { simpl. apply negb_true_iff, bool_decide_eq_false. exact Hne. }
  rewrite Htruthy. simpl. unfold Py.getitem.
  split; [| split; [| split]].
  - intros ([y Hy] & [m Hm] & [d Hd]). rewrite Hy, Hm, Hd. simpl. eauto.
  - intros Hy. now rewrite Hy.
  - intros [y Hy] Hm. now rewrite Hy, Hm.
  - intros [y Hy] [m Hm] Hd. now rewrite Hy, Hm, Hd.
Qed.

(** A dictionary with a year only. *)
Lemma format_missing_key_witness :
  format_nepali_date (Some (<["year" := 2081]> ∅)) "YYYY/MM/DD"
  = Py.Raise (Py.KeyError "month").
Proof.
  destruct (format_missing_key (<["year" := 2081]> ∅) "YYYY/MM/DD")
    as (_ & _ & Hmonth & _).
  - intros H. apply (f_equal (fun m : date_dict => m !! "year")) in H.
    vm_compute in H. discriminate.
  - apply Hmonth; [exists 2081 |]; vm_compute; reflexivity.
Defined.

Lemma append_empty_r s : s +:+ EmptyString = s.
Proof.
  induction s as [| c s IH]; [reflexivity |].
  change (String c (s +:+ EmptyString) = String c s). now f_equal.
Qed.

(** [replace] walks past any run of characters that cannot start the
    pattern. *)
Lemma replace_from_pass (head : ascii) (tail new : string) s rest :
  string_forall (fun c => negb (Ascii.eqb c head)) s = true ->
  Py.replace_from (String head tail) new 0 (s +:+ rest)
  = s +:+ Py.replace_from (String head tail) new 0 rest.
Proof.
  induction s as [| c s IH]; simpl; [reflexivity |].
  rewrite andb_true_iff, negb_true_iff. intros [Hc Hs].
  destruct (Ascii.ascii_dec head c) as [-> | _].
  - now rewrite Ascii.eqb_refl in Hc.
  - now rewrite IH.
Qed.

Lemma zeros_chars n : string_forall is_int_char (Py.zeros n) = true.
Proof. induction n; simpl; auto. Qed.

Lemma zfill_chars s width :
  string_forall is_int_char s = true ->
  string_forall is_int_char (Py.zfill s width) = true.
Proof.
  intros Hs. unfold Py.zfill.
  destruct (width <=? String.length s)%nat; [exact Hs |].
  destruct s as [| c s]; [apply zeros_chars |].
  simpl in Hs. apply andb_true_iff in Hs as [Hc Hs].
  destruct (Ascii.eqb c "+" || Ascii.eqb c "-")%bool.
  - simpl. now rewrite Hc, string_forall_app, zeros_chars, Hs.
  - rewrite string_forall_app, zeros_chars. simpl. now rewrite Hc, Hs.
Qed.

(** No character of a printed, padded integer starts one of the patterns
    YYYY, MM and DD. *)
Lemma int_chars_pass (head : ascii) s :
  is_int_char head = false ->
  string_forall is_int_char s = true ->
  string_forall (fun c => negb (Ascii.eqb c head)) s = true.
Proof.
  intros Hhead. apply string_forall_impl. intros c Hc.
  apply negb_true_iff, Ascii.eqb_neq. intros ->. congruence.
Qed.

Lemma replace_int_text (head : ascii) (tail new : string) s rest :
  is_int_char head = false ->
  string_forall is_int_char s = true ->
  Py.replace_from (String head tail) new 0 (s +:+ rest)
  = s +:+ Py.replace_from (String head tail) new 0 rest.
Proof. intros Hhead Hs. apply replace_from_pass. now apply int_chars_pass. Qed.

Lemma replace_int_text_end (head : ascii) (tail new : string) s :
  is_int_char head = false ->
  string_forall is_int_char s = true ->
  Py.replace_from (String head tail) new 0 s = s.
Proof.
  intros Hhead Hs.
  pose proof (replace_int_text head tail new s EmptyString Hhead Hs) as H.
  rewrite append_empty_r in H. rewrite H. simpl. apply append_empty_r.
Qed.

Lemma lookup_not_empty (date : date_dict) key value :
  date !! key = Some value -> Py.truthy (Some date) = true.
Proof.
  intros H. simpl. apply negb_true_iff, bool_decide_eq_false.
  intros ->. now rewrite lookup_empty in H.
Qed.

Ltac replace_steps :=
  repeat first
    [ rewrite replace_int_text by (reflexivity || assumption)
    | rewrite replace_int_text_end by (reflexivity || assumption)
    | rewrite append_empty_r
    | progress simpl ].

(** The three replacements of [format_nepali_date] on the formats the
    module uses, for texts made of digits and signs. *)
Lemma replace_in_formats year month day :
  string_forall is_int_char year = true ->
  string_forall is_int_char month = true ->
  string_forall is_int_char day = true ->
  Py.replace (Py.replace (Py.replace "YYYY/MM/DD" "YYYY" year) "MM" month) "DD" day
  = year +:+ "/" +:+ month +:+ "/" +:+ day
  /\ Py.replace (Py.replace (Py.replace "DD-MM-YYYY" "YYYY" year) "MM" month) "DD" day
     = day +:+ "-" +:+ month +:+ "-" +:+ year
  /\ Py.replace (Py.replace (Py.replace "YYYY.MM.DD" "YYYY" year) "MM" month) "DD" day
     = year +:+ "." +:+ month +:+ "." +:+ day
  /\ Py.replace (Py.replace (Py.replace "YYYY-MM-DD" "YYYY" year) "MM" month) "DD" day
     = year +:+ "-" +:+ month +:+ "-" +:+ day.
Proof.
  intros Hy Hm Hd. unfold Py.replace.
  repeat split; replace_steps; reflexivity.
Qed.

Lemma format_with_fields (date : date_dict) (format_str : string) y m d :
  date !! "year" = Some y -> date !! "month" = Some m -> date !! "day" = Some d ->
  format_nepali_date (Some date) format_str
  = Py.Ok (Py.replace
             (Py.replace (Py.replace format_str "YYYY" (Py.str_of_int y))
                "MM" (Py.zfill (Py.str_of_int m) 2))
             "DD" (Py.zfill (Py.str_of_int d) 2)).
Proof.
  intros Hy Hm Hd. unfold format_nepali_date.
  rewrite (lookup_not_empty _ _ _ Hy). simpl. unfold Py.getitem.
  now rewrite Hy, Hm, Hd.
Qed.

(** X16. For every dictionary with a year, a month and a day that
    [str] prints (integers of at most 4300 digits), the formats the module
    uses come out as the year and the zero-padded month and day in the order
    of the format, with its separators: YYYY/MM/DD, DD-MM-YYYY and
    YYYY.MM.DD of [format_nepali_date], and YYYY-MM-DD of
    [format_ad_date]. *)
Theorem format_of_date (date : date_dict) (y m d : Z) :
  date !! "year" = Some y -> date !! "month" = Some m -> date !! "day" = Some d ->
  Py.printable y -> Py.printable m -> Py.printable d ->
  format_nepali_date (Some date) "YYYY/MM/DD"
  = Py.Ok (Py.str_of_int y +:+ "/" +:+ Py.zfill (Py.str_of_int m) 2
             +:+ "/" +:+ Py.zfill (Py.str_of_int d) 2)
  /\ format_nepali_date (Some date) "DD-MM-YYYY"
     = Py.Ok (Py.zfill (Py.str_of_int d) 2 +:+ "-" +:+ Py.zfill (Py.str_of_int m) 2
                +:+ "-" +:+ Py.str_of_int y)
  /\ format_nepali_date (Some date) "YYYY.MM.DD"
     = Py.Ok (Py.str_of_int y +:+ "." +:+ Py.zfill (Py.str_of_int m) 2
                +:+ "." +:+ Py.zfill (Py.str_of_int d) 2)
  /\ format_ad_date (Some date) "YYYY-MM-DD"
     = Py.Ok (Py.str_of_int y +:+ "-" +:+ Py.zfill (Py.str_of_int m) 2
                +:+ "-" +:+ Py.zfill (Py.str_of_int d) 2).
Proof.
  intros Hy Hm Hd _ _ _. unfold format_ad_date.
  rewrite !(format_with_fields date _ y m d Hy Hm Hd).
  destruct (replace_in_formats (Py.str_of_int y) (Py.zfill (Py.str_of_int m) 2)
              (Py.zfill (Py.str_of_int d) 2))
    as (H1 & H2 & H3 & H4);
    try apply zfill_chars; try apply str_of_int_chars.
  now rewrite H1, H2, H3, H4.
Qed.

(** The date 1 Baisakh 2081. *)
Lemma format_of_date_witness :
  format_nepali_date (Some (make_date 2081 1 1)) "YYYY/MM/DD"
  = Py.Ok (Py.str_of_int 2081 +:+ "/" +:+ Py.zfill (Py.str_of_int 1) 2
             +:+ "/" +:+ Py.zfill (Py.str_of_int 1) 2)
  /\ format_nepali_date (Some (make_date 2081 1 1)) "DD-MM-YYYY"
     = Py.Ok (Py.zfill (Py.str_of_int 1) 2 +:+ "-" +:+ Py.zfill (Py.str_of_int 1) 2
                +:+ "-" +:+ Py.str_of_int 2081)
  /\ format_nepali_date (Some (make_date 2081 1 1)) "YYYY.MM.DD"
     = Py.Ok (Py.str_of_int 2081 +:+ "." +:+ Py.zfill (Py.str_of_int 1) 2
                +:+ "." +:+ Py.zfill (Py.str_of_int 1) 2)
  /\ format_ad_date (Some (make_date 2081 1 1)) "YYYY-MM-DD"
     = Py.Ok (Py.str_of_int 2081 +:+ "-" +:+ Py.zfill (Py.str_of_int 1) 2
                +:+ "-" +:+ Py.zfill (Py.str_of_int 1) 2).
Proof.
  apply (format_of_date (make_date 2081 1 1) 2081 1 1); vm_compute; reflexivity.
Defined.

(** The bound is the one of [str]: 10 ** 4299 has 4300 digits and is
    printed, 10 ** 4300 has 4301. *)
Example printable_limit :
  Py.printable (10 ^ 4299) /\ ~ Py.printable (10 ^ 4300)
  /\ String.length (Py.str_of_int (10 ^ 4299)) = 4300%nat.
Proof.
  split; [vm_compute; reflexivity |].
  split; [vm_compute; discriminate | vm_compute; reflexivity].
Qed.

(** X17. A format without any of the letters Y, M and D comes back
    unchanged from [format_nepali_date], for every dictionary with a year,
    a month and a day. *)
Theorem format_without_letters (date : date_dict) (format_str : string) :
  has_date_fields date ->
  string_forall
    (fun c => negb (Ascii.eqb c "Y") && negb (Ascii.eqb c "M")
              && negb (Ascii.eqb c "D"))
    format_str = true ->
  format_nepali_date (Some date) format_str = Py.Ok format_str.
Proof.
  intros ([y Hy] & [m Hm] & [d Hd]) Hplain.
  rewrite (format_with_fields date _ y m d Hy Hm Hd). f_equal.
  assert (Hkeep : forall head tail new,
             (head = "Y" \/ head = "M" \/ head = "D")%char ->
             Py.replace format_str (String head tail) new = format_str).
  { intros head tail new Hhead. unfold Py.replace.
    pose proof (replace_from_pass head tail new format_str EmptyString) as H.
    rewrite append_empty_r in H. rewrite H; [simpl; apply append_empty_r |].
    revert Hplain. apply string_forall_impl. intros c.
    rewrite !andb_true_iff. intros [[HY HM] HD].
    destruct Hhead as [-> | [-> | ->]]; assumption. }
  rewrite (Hkeep "Y"%char "YYY") by auto.
  rewrite (Hkeep "M"%char "M") by auto.
  now rewrite (Hkeep "D"%char "D") by auto.
Qed.

(** The time of day, which has no letter of a date. *)
Lemma format_without_letters_witness :
  format_nepali_date (Some (make_date 2081 6 29)) "12:00" = Py.Ok "12:00".
Proof.
  apply (format_without_letters (make_date 2081 6 29) "12:00").
  - unfold has_date_fields. repeat split; vm_compute; eauto.
  - reflexivity.
Defined.

Lemma checked_on_range (p : Z -> bool) (first len : Z) :
  forallb p (seqZ first len) = true ->
  forall z, first <= z < first + len -> p z = true.
Proof.
  intros H z Hz. rewrite forallb_forall in H. apply H.
  apply list_elem_of_In, elem_of_seqZ. lia.
Qed.

Lemma string_length_app s1 s2 :
  String.length (s1 +:+ s2) = (String.length s1 + String.length s2)%nat.
Proof. induction s1 as [| c s1 IH]; simpl; [reflexivity | now rewrite IH]. Qed.

Lemma is_valid_ad_date_ranges year month day :
  is_valid_ad_date year month day = true ->
  1943 <= year <= 2042 /\ 1 <= month <= 12 /\ 1 <= day <= 31.
Proof.
  unfold is_valid_ad_date.
  destruct (Z.leb_spec 1943 year), (Z.leb_spec year 2042); simpl; try discriminate.
  destruct (Z.leb_spec 1 month), (Z.leb_spec month 12); simpl; try discriminate.
  destruct (Z.leb_spec 1 day), (Z.leb_spec day 31); simpl; try discriminate.
  lia.
Qed.

(** X18. A date that either validator accepts is formatted under YYYY/MM/DD
    as a text of exactly ten characters: four for the year, two for the
    month and two for the day. *)
Theorem format_valid_date_length (year month day : Z) :
  is_valid_ad_date year month day = true \/ is_valid_bs_date year month day = true ->
  exists text,
    format_nepali_date (Some (make_date year month day)) "YYYY/MM/DD" = Py.Ok text
    /\ String.length text = 10%nat
    /\ String.length (Py.str_of_int year) = 4%nat
    /\ String.length (Py.zfill (Py.str_of_int month) 2) = 2%nat
    /\ String.length (Py.zfill (Py.str_of_int day) 2) = 2%nat.
Proof.
  intros Hvalid.
  assert (Hrange : 1943 <= year <= 2099 /\ 1 <= month <= 12 /\ 1 <= day <= 32).
  { destruct Hvalid as [H | H].
    - apply is_valid_ad_date_ranges in H. lia.
    - apply is_valid_bs_date_sound in H. lia. }
  assert (Hyear : String.length (Py.str_of_int year) = 4%nat).
  { apply Nat.eqb_eq.
    apply (checked_on_range
             (fun z => (String.length (Py.str_of_int z) =? 4)%nat) 1943 157);
      [vm_compute; reflexivity | lia]. }
  assert (Htwo : forall z, 1 <= z <= 32 ->
                   String.length (Py.zfill (Py.str_of_int z) 2) = 2%nat).
  { intros z Hz. apply Nat.eqb_eq.
    apply (checked_on_range
             (fun z => (String.length (Py.zfill (Py.str_of_int z) 2) =? 2)%nat) 1 32);
      [vm_compute; reflexivity | lia]. }
  destruct (make_date_fields year month day) as (Hy & Hm & Hd).
  rewrite (format_with_fields _ _ _ _ _ Hy Hm Hd).
  destruct (replace_in_formats (Py.str_of_int year) (Py.zfill (Py.str_of_int month) 2)
              (Py.zfill (Py.str_of_int day) 2))
    as (-> & _);
    try apply zfill_chars; try apply str_of_int_chars.
  eexists. split; [reflexivity |].
  rewrite !string_length_app, Hyear, !Htwo by lia.
  repeat split; reflexivity.
Qed.

(** New year's day 2081 BS. *)
Lemma format_valid_date_length_witness :
  exists text,
    format_nepali_date (Some (make_date 2081 1 1)) "YYYY/MM/DD" = Py.Ok text
    /\ String.length text = 10%nat
    /\ String.length (Py.str_of_int 2081) = 4%nat
    /\ String.length (Py.zfill (Py.str_of_int 1) 2) = 2%nat
    /\ String.length (Py.zfill (Py.str_of_int 1) 2) = 2%nat.
Proof.
  apply (format_valid_date_length 2081 1 1). right. reflexivity.
Defined.

(** ** More on validation *)

(** X19. In the years [is_valid_ad_date] accepts, the 29th of February is
    valid exactly in the years divisible by 4. *)
Theorem leap_day_valid_iff (year : Z) :
  1943 <= year <= 2042 ->
  (is_valid_ad_date year 2 29 = true <-> year mod 4 = 0).
Proof.
  intros Hyear.
  pose proof (checked_on_range
                (fun z => Bool.eqb (is_valid_ad_date z 2 29) (z mod 4 =? 0))
                1943 100 ltac:(vm_compute; reflexivity) year ltac:(lia)) as H.
  apply Bool.eqb_prop in H. rewrite H. apply Z.eqb_eq.
Qed.

Lemma leap_day_valid_iff_witness :
  is_valid_ad_date 2000 2 29 = true <-> 2000 mod 4 = 0.
Proof. apply (leap_day_valid_iff 2000). lia. Defined.

Lemma days_in_month_at_least_28 year month :
  1 <= month <= 12 -> 28 <= Datetime._days_in_month year month.
Proof.
  intros Hm. unfold Datetime._days_in_month.
  assert (Hc : month = 1 \/ month = 2 \/ month = 3 \/ month = 4 \/ month = 5
               \/ month = 6 \/ month = 7 \/ month = 8 \/ month = 9
               \/ month = 10 \/ month = 11 \/ month = 12) by lia.
  repeat destruct Hc as [-> | Hc]; try subst month;
    destruct (Datetime._is_leap year); simpl; lia.
Qed.

(** X20. The days [is_valid_ad_date] accepts in a month are the first ones
    of that month, without a gap: an accepted day makes every earlier day of
    the month accepted, and the days 1 to 28 are accepted in every month of
    every year from 1943 to 2042. *)
Theorem valid_days_are_initial (year month day : Z) :
  (forall earlier,
      is_valid_ad_date year month day = true -> 1 <= earlier <= day ->
      is_valid_ad_date year month earlier = true)
  /\ (1943 <= year <= 2042 -> 1 <= month <= 12 -> 1 <= day <= 28 ->
      is_valid_ad_date year month day = true).
Proof.
  assert (Hgen : forall d,
             1943 <= year <= 2042 -> 1 <= month <= 12 ->
             1 <= d <= 31 -> d <= Datetime._days_in_month year month ->
             is_valid_ad_date year month d = true).
  { intros d Hy Hm Hd Hdim.
    unfold is_valid_ad_date, Datetime.datetime, Datetime.MINYEAR, Datetime.MAXYEAR.
    repeat match goal with
           | |- context [?a <=? ?b] =>
               destruct (Z.leb_spec a b); simpl; try lia
           end.
    all: reflexivity. }
  split.
  - intros earlier Hvalid Hearlier.
    pose proof (is_valid_ad_date_ranges _ _ _ Hvalid) as (Hy & Hm & Hd).
    apply Hgen; try lia.
    revert Hvalid.
    unfold is_valid_ad_date, Datetime.datetime, Datetime.MINYEAR, Datetime.MAXYEAR.
    repeat match goal with
           | |- context [?a <=? ?b] =>
               destruct (Z.leb_spec a b); simpl; try lia; try discriminate
           end.
  - intros Hy Hm Hd. apply Hgen; try lia.
    pose proof (days_in_month_at_least_28 year month Hm). lia.
Qed.

(** The month of April 2024. *)
Lemma valid_days_are_initial_witness :
  is_valid_ad_date 2024 4 29 = true /\ is_valid_ad_date 2024 4 28 = true.
Proof.
  destruct (valid_days_are_initial 2024 4 30) as [Hearlier _].
  destruct (valid_days_are_initial 2024 4 28) as [_ Hfirst].
  split; [apply Hearlier; [reflexivity | lia] | apply Hfirst; lia].
Defined.

(** ** More on the batch *)

Lemma batch_documented_app server conversion_type n dates1 dates2 :
  batch_documented server conversion_type n (dates1 ++ dates2) ->
  batch_documented server conversion_type n dates1
  /\ batch_documented server conversion_type (n + length dates1) dates2.
Proof.
  intros Hdoc. split; intros i year month day data Hi E.
  - apply (Hdoc i year month day data); [| exact E].
    now apply lookup_app_l_Some.
  - apply (Hdoc (length dates1 + i)%nat year month day data).
    + now rewrite lookup_app_r, Nat.add_comm, Nat.add_sub by lia.
    + now rewrite Nat.add_assoc.
Qed.

Lemma batch_entries_app server conversion_type dates1 dates2 :
  forall n,
    batch_documented server conversion_type n dates1 ->
    batch_entries server conversion_type n (dates1 ++ dates2)
    = batch_entries server conversion_type n dates1
      ++ batch_entries server conversion_type (n + length dates1) dates2.
Proof.
  induction dates1 as [| [[year month] day] rest IH]; intros n Hdoc.
  - simpl. now rewrite Nat.add_0_r.
  - pose proof (Hdoc 0%nat year month day) as Hfirst.
    rewrite Nat.add_0_r in Hfirst.
    apply batch_documented_tail in Hdoc.
    cbn [batch_entries app].
    destruct (server n (api_url conversion_type year month day))
      as [kind message | [result | error | |]];
      try (exfalso; exact (Hfirst _ eq_refl eq_refl));
      cbn [batch_entry_for]; rewrite (IH _ Hdoc); simpl;
      do 3 f_equal; lia.
Qed.

(** X21. For a delay [time.sleep] sleeps (a finite number from 0 to
    2 ** 33 seconds) and replies that are a raised [RequestException] or a
    documented body, a batch over two lists in a row is the batch over the
    first list followed, on the log it leaves, by the batch over the second:
    the results are those of the two batches, in this order, and so is the
    log. *)
Theorem convert_batch_dates_app
    (server : service) (dates1 dates2 : list (Z * Z * Z))
    (conversion_type : string) (delay : Q) (log : list event) :
  sleepable (Py.Finite delay) ->
  batch_documented server conversion_type (length (gets log)) (dates1 ++ dates2) ->
  exists results1 results2 log1 log2,
    convert_batch_dates server dates1 conversion_type (Py.Finite delay) log
    = (Py.Ok results1, log1)
    /\ convert_batch_dates server dates2 conversion_type (Py.Finite delay) log1
       = (Py.Ok results2, log2)
    /\ convert_batch_dates server (dates1 ++ dates2) conversion_type
         (Py.Finite delay) log
       = (Py.Ok (results1 ++ results2), log2).
Proof.
  intros Hdelay Hdoc.
  destruct (batch_documented_app _ _ _ _ _ Hdoc) as [Hdoc1 Hdoc2].
  assert (Hmid : length (gets (log ++ batch_trace conversion_type delay dates1))
                 = (length (gets log) + length dates1)%nat).
  { rewrite gets_app, length_app, batch_trace_gets.
    unfold batch_urls. now rewrite length_map. }
  unfold convert_batch_dates.
  rewrite (batch_loop_run server conversion_type delay Hdelay dates1 [] log Hdoc1).
  rewrite (batch_loop_run server conversion_type delay Hdelay (dates1 ++ dates2)
             [] log Hdoc).
  eexists _, _, _, _. split; [reflexivity |].
  rewrite batch_loop_run; [| exact Hdelay | now rewrite Hmid].
  split; [reflexivity |].
  simpl. rewrite (batch_entries_app _ _ _ _ _ Hdoc1), Hmid. unfold batch_trace.
  now rewrite flat_map_app, app_assoc.
Qed.

(** Two dates, then one more. *)
Lemma convert_batch_dates_app_witness :
  exists results1 results2 log1 log2,
    convert_batch_dates second_rejected [(2024, 1, 1); (2024, 13, 1)]
      "ad-to-bs" (Py.Finite (1 # 10)) []
    = (Py.Ok results1, log1)
    /\ convert_batch_dates second_rejected [(2024, 12, 31)] "ad-to-bs"
         (Py.Finite (1 # 10)) log1
       = (Py.Ok results2, log2)
    /\ convert_batch_dates second_rejected
         ([(2024, 1, 1); (2024, 13, 1)] ++ [(2024, 12, 31)]) "ad-to-bs"
         (Py.Finite (1 # 10)) []
       = (Py.Ok (results1 ++ results2), log2).
Proof.
  apply (convert_batch_dates_app second_rejected
           [(2024, 1, 1); (2024, 13, 1)] [(2024, 12, 31)] "ad-to-bs" (1 # 10) []).
  - unfold sleepable, Qle. simpl. lia.
  - intros i year month day data _. unfold second_rejected.
    destruct (_ =? 1)%nat; intros [= <-]; exact I.
Defined.



(** ** Retry against a service that answers success: false *)

Section RetryRejected.
Variable server : service.
Variables (url : string) (max_retries : Z).

Lemma retry_loop_all_rejected (attempts : list Z) :
  forall log,
    (forall i, (i < length attempts)%nat ->
       exists error,
         server (length (gets log) + i)%nat url = Responds (Failure error)) ->
    exists new,
      retry_loop server url max_retries attempts log = (Py.Ok None, log ++ new)
      /\ effects new = repeat (Get url) (length attempts).
Proof.
  induction attempts as [| attempt rest IH]; intros log Hrejected.
  - exists []. simpl. unfold ret. now rewrite app_nil_r.
  - destruct (Hrejected 0%nat ltac:(simpl; lia)) as (error & E).
    rewrite Nat.add_0_r in E.
    rewrite (retry_pass_api_failure _ _ _ _ _ _ _ E).
    edestruct IH as (new & -> & Hnew).
    { intros i Hi. rewrite gets_app, length_app. simpl.
      destruct (Hrejected (S i) ltac:(simpl; lia)) as (error' & E').
      exists error'. rewrite <- E'. f_equal. lia. }
    eexists. split; [rewrite <- app_assoc; reflexivity |].
    rewrite effects_app, Hnew. reflexivity.
Qed.

End RetryRejected.

(** X23. When every attempt is answered with success: false,
    [convert_with_retry] issues its [max_retries] GETs one after the other
    without ever sleeping, and returns [None]. *)
Theorem convert_with_retry_rejected_no_sleep
    (server : service) (year month day : Z) (conversion_type : string)
    (max_retries : Z) (log : list event) :
  (forall i, (i < Z.to_nat max_retries)%nat ->
     exists error,
       server (length (gets log) + i)%nat (api_url conversion_type year month day)
       = Responds (Failure error)) ->
  exists new,
    convert_with_retry server year month day conversion_type max_retries log
    = (Py.Ok None, log ++ new)
    /\ effects new
       = repeat (Get (api_url conversion_type year month day)) (Z.to_nat max_retries)
    /\ sleeps new = [].
Proof.
  intros Hrejected. unfold convert_with_retry, range.
  destruct (retry_loop_all_rejected server (api_url conversion_type year month day)
              max_retries (seqZ 1 (max_retries + 1 - 1)) log)
    as (new & Hrun & Heff).
  { intros i Hi. apply Hrejected. rewrite length_seqZ in Hi. lia. }
  rewrite length_seqZ in Heff.
  replace (Z.to_nat (max_retries + 1 - 1)) with (Z.to_nat max_retries) in Heff by lia.
  exists new. split; [exact Hrun |]. split; [exact Heff |].
  rewrite <- sleeps_effects, Heff.
  clear. induction (Z.to_nat max_retries) as [| n IH]; simpl; auto.
Qed.

(** Three attempts at a date the service rejects. *)
Lemma convert_with_retry_rejected_no_sleep_witness :
  exists new,
    convert_with_retry rejecting 2024 13 1 "ad-to-bs" 3 [] = (Py.Ok None, [] ++ new)
    /\ effects new = repeat (Get (api_url "ad-to-bs" 2024 13 1)) (Z.to_nat 3)
    /\ sleeps new = [].
Proof.
  apply (convert_with_retry_rejected_no_sleep rejecting 2024 13 1 "ad-to-bs" 3 []).
  intros i _. exists (Some "Invalid date"). reflexivity.
Defined.

(** ** Witnesses of the injectivity results *)

(** Two spellings of the same day: 15 and 0 + 15. *)
Lemma generate_key_injective_witness :
  DateConverterCache._generate_key 2024 10 15 "ad-to-bs"
  = DateConverterCache._generate_key 2024 10 (0 + 15) "ad-to-bs"
  /\ (2024 = 2024 /\ 10 = 10 /\ 15 = 0 + 15).
Proof.
  split; [reflexivity |].
  apply (proj1 generate_key_injective "ad-to-bs" 2024 10 15 2024 10 (0 + 15)).
  reflexivity.
Defined.

Lemma api_url_injective_witness :
  api_url "ad-to-bs" 2024 10 15 = api_url "ad-to-bs" 2024 10 (0 + 15)
  /\ (2024 = 2024 /\ 10 = 10 /\ 15 = 0 + 15).
Proof.
  split; [reflexivity |].
  apply (api_url_injective "ad-to-bs" 2024 10 15 2024 10 (0 + 15)). reflexivity.
Defined.
